(** * test-server.py: the port scan of [main] and the request handler
      [TestServerHandler], as a shallow embedding.

    The program is a Python script.  Its own code is the loop of [main]
    and three overrides of [http.server.SimpleHTTPRequestHandler]; the
    methods of the Python library that those overrides call or are called
    from ([send_header], [send_response], [send_error], [send_head], ...)
    are embedded from CPython's [http/server.py] and [socketserver.py], as
    far as the handling of a request with a well-formed request line goes.
    What the operating system decides (whether a port binds, what the file
    system holds, what the clock shows, when the interrupt arrives) is an
    explicit [World]. *)

From Stdlib Require Import ZArith List String Ascii Bool Lia PeanoNat.
From Stdlib Require Import DecimalString.
Import ListNotations.
Local Open Scope string_scope.
Local Open Scope Z_scope.

(** ** Python strings and numbers *)

Module Py.

(** [str(n)] for an [int]. *)
Definition str_of_Z (n : Z) : string :=
  NilZero.string_of_int (Z.to_int n).

(** [s.startswith(p)] *)
Definition startswith (p s : string) : bool := String.prefix p s.

(** [s.endswith(p)] *)
Definition endswith (p s : string) : bool :=
  let lp := String.length p in
  let ls := String.length s in
  (lp <=? ls)%nat && String.eqb (String.substring (ls - lp) lp s) p.

Definition lower_ascii (c : ascii) : ascii :=
  let n := nat_of_ascii c in
  if ((65 <=? n) && (n <=? 90))%nat then ascii_of_nat (n + 32) else c.

(** [s.lower()], on ASCII text. *)
Fixpoint lower (s : string) : string :=
  match s with
  | EmptyString => EmptyString
  | String c r => String (lower_ascii c) (lower r)
  end.

(** [s.lstrip('/')] *)
Fixpoint lstrip_slash (s : string) : string :=
  match s with
  | String "/"%char r => lstrip_slash r
  | _ => s
  end.

(** [posixpath.join(a, b)] for two components. *)
Definition path_join (a b : string) : string :=
  if startswith "/" b then b
  else if String.eqb a "" || endswith "/" a then a ++ b
  else a ++ "/" ++ b.

(** The arguments of a [%] format: strings and integers. *)
Inductive value : Type :=
| VStr (s : string)
| VInt (n : Z).

Definition str (v : value) : string :=
  match v with
  | VStr s => s
  | VInt n => str_of_Z n
  end.

(** [format % args] for the directives [%s] and [%d]; [%%] is a literal
    percent sign.  A directive without an argument left is kept as it is
    (Python raises there; no caller in this program does that). *)
Fixpoint format (fmt : string) (args : list value) : string :=
  match fmt with
  | EmptyString => EmptyString
  | String "%"%char (String "%"%char r) => String "%"%char (format r args)
  | String "%"%char (String d r) =>
      if (Ascii.eqb d "s" || Ascii.eqb d "d")%bool then
        match args with
        | v :: args' => str v ++ format r args'
        | [] => String "%"%char (String d (format r args))
        end
      else String "%"%char (String d (format r args))
  | String c r => String c (format r args)
  end.

End Py.

(** ** The operating system's side of a run *)

(** An [OSError]: its [errno] attribute ([None] when Python gives it none)
    and its rendering [str(e)]. *)
Record OSError : Type := mkOSError {
  errno : option Z;
  os_str : string
}.

(** What [socketserver.TCPServer(("", port), ...)] does. *)
Inductive bind_result : Type :=
| Bound
| BindFails (e : OSError).

(** How [serve_forever] ends.  Nothing in the program calls [shutdown], so
    [ShutDown] stands for a return that some other code would cause;
    [Forever] is the run in which nothing ever stops the loop. *)
Inductive serve_end : Type :=
| Interrupted                 (* KeyboardInterrupt raised in the loop *)
| ServeFails (e : OSError)    (* an OSError leaves the loop *)
| ShutDown                    (* serve_forever returns *)
| Forever.

(** An open file: what [open(path, 'rb')] and [os.fstat] give. *)
Record file : Type := mkFile {
  f_content : string;
  f_size : Z;          (* fs[6], st_size *)
  f_mtime : Z          (* st_mtime, in whole seconds *)
}.

(** An exception that is no [OSError]: the [ValueError] that [open]
    raises for a path with a null byte, and its subclass
    [UnicodeEncodeError] for a path that cannot be encoded. *)
Inductive exn : Type :=
| ValueError (what : string).

(** What [open(path, 'rb')] does. *)
Inductive open_result : Type :=
| Opened (f : file)
| OpenFails (e : OSError)     (* no such file, no permission, ... *)
| OpenRaises (x : exn).

(** The file system as the handler queries it.  [os.path.isdir] and
    [os.path.isfile] answer [False] where [os.stat] raises.
    [fs_listing p shown] is the encoded page that [list_directory] builds
    for directory [p] requested as [shown]; [None] when [os.listdir]
    raises [OSError]. *)
Record filesystem : Type := mkFS {
  isdir : string -> bool;
  isfile : string -> bool;
  open_rb : string -> open_result;
  fs_listing : string -> string -> option string
}.

(** ** What the handler writes *)

(** One entry of [_headers_buffer]. *)
Inductive hline : Type :=
| Status (proto : string) (code : Z) (message : string)
| Field (keyword value : string)
| EndOfHeaders.

(** One [wfile.write]: a flushed header section or a body. *)
Inductive chunk : Type :=
| Head (lines : list hline)
| Body (data : string).

Definition CRLF : string :=
  String (ascii_of_nat 13) (String (ascii_of_nat 10) EmptyString).

(** The bytes of a buffer entry: ["%s %d %s\r\n"], ["%s: %s\r\n"], ["\r\n"]. *)
Definition render_hline (l : hline) : string :=
  match l with
  | Status proto code message =>
      proto ++ " " ++ Py.str_of_Z code ++ " " ++ message ++ CRLF
  | Field k v => k ++ ": " ++ v ++ CRLF
  | EndOfHeaders => CRLF
  end.

Definition render_chunk (c : chunk) : string :=
  match c with
  | Head ls => String.concat "" (map render_hline ls)
  | Body d => d
  end.

(** The byte stream a client receives. *)
Definition wire (out : list chunk) : string :=
  String.concat "" (map render_chunk out).

(** ** Library functions kept abstract

    Pure functions of the Python library whose text does not matter to the
    program's control flow. *)
Class Runtime : Type := {
  normpath : string -> string;             (* posixpath.normpath *)
  dirname : string -> string;              (* posixpath.dirname *)
  url_words : string -> list string;       (* translate_path: the kept words *)
  url_trailing_slash : string -> bool;     (* translate_path: trailing_slash *)
  urlsplit_path : string -> string;        (* urlsplit(path).path *)
  redirect_url : string -> string;         (* urlunsplit with '/' added *)
  guess_type : string -> string;           (* SimpleHTTPRequestHandler.guess_type *)
  version_string : string;                 (* the Server header's value *)
  date_time_string : Z -> string;          (* RFC 7231 date of a timestamp *)
  log_date_time_string : Z -> string;      (* the log's date of a timestamp *)
  repr : string -> string;                 (* repr of a str *)
  error_page : Z -> string -> string -> string;  (* error_message_format % ... *)
  parsedate_utc : string -> option Z;      (* a UTC If-Modified-Since, in seconds *)
  fs_encoding : string                     (* sys.getfilesystemencoding() *)
}.

(** ** The handler object *)

Record handler : Type := mkHandler {
  directory : string;
  requestline : string;
  command : option string;
  path : string;
  request_version : string;
  headers : list (string * string);
  headers_buffer : list hline;
  wfile : list chunk;
  close_connection : bool;
  clock : nat -> Z;             (* [time.time()], reading after reading *)
  reads : nat;                  (* the readings taken so far *)
  stdout : list string;         (* lines printed *)
  escaped : option exn          (* the exception that has left the
                                   handler's methods, if one has *)
}.

Definition set_headers_buffer (b : list hline) (h : handler) : handler :=
  mkHandler (directory h) (requestline h) (command h) (path h)
    (request_version h) (headers h) b (wfile h) (close_connection h)
    (clock h) (reads h) (stdout h) (escaped h).

Definition set_wfile (w : list chunk) (h : handler) : handler :=
  mkHandler (directory h) (requestline h) (command h) (path h)
    (request_version h) (headers h) (headers_buffer h) w (close_connection h)
    (clock h) (reads h) (stdout h) (escaped h).

Definition set_close_connection (c : bool) (h : handler) : handler :=
  mkHandler (directory h) (requestline h) (command h) (path h)
    (request_version h) (headers h) (headers_buffer h) (wfile h) c
    (clock h) (reads h) (stdout h) (escaped h).

Definition set_stdout (s : list string) (h : handler) : handler :=
  mkHandler (directory h) (requestline h) (command h) (path h)
    (request_version h) (headers h) (headers_buffer h) (wfile h)
    (close_connection h) (clock h) (reads h) s (escaped h).

Definition set_request_version (v : string) (h : handler) : handler :=
  mkHandler (directory h) (requestline h) (command h) (path h)
    v (headers h) (headers_buffer h) (wfile h)
    (close_connection h) (clock h) (reads h) (stdout h) (escaped h).

Definition set_command_path (c p : string) (h : handler) : handler :=
  mkHandler (directory h) (requestline h) (Some c) p
    (request_version h) (headers h) (headers_buffer h) (wfile h)
    (close_connection h) (clock h) (reads h) (stdout h) (escaped h).

Definition set_headers (hs : list (string * string)) (h : handler) : handler :=
  mkHandler (directory h) (requestline h) (command h) (path h)
    (request_version h) hs (headers_buffer h) (wfile h)
    (close_connection h) (clock h) (reads h) (stdout h) (escaped h).

(** [time.time()]: what the clock shows now. *)
Definition time_time (h : handler) : Z := clock h (reads h).

(** The handler once that reading is taken. *)
Definition tick (h : handler) : handler :=
  mkHandler (directory h) (requestline h) (command h) (path h)
    (request_version h) (headers h) (headers_buffer h) (wfile h)
    (close_connection h) (clock h) (S (reads h)) (stdout h) (escaped h).

(** [raise x], where nothing in the handler catches [x]: the methods
    under way are left at once. *)
Definition raise (x : exn) (h : handler) : handler :=
  mkHandler (directory h) (requestline h) (command h) (path h)
    (request_version h) (headers h) (headers_buffer h) (wfile h)
    (close_connection h) (clock h) (reads h) (stdout h) (Some x).

(** [print(line)] *)
Definition print (line : string) (h : handler) : handler :=
  set_stdout (stdout h ++ [line]) h.

(** The methods a subclass overrides and the library calls through [self]. *)
Record klass : Type := mkKlass {
  k_end_headers : handler -> handler;
  k_log_message : string -> list Py.value -> handler -> handler
}.

(** [http.HTTPStatus]: the phrases of the codes the handler sends. *)
Definition responses (code : Z) : option (string * string) :=
  if code =? 100 then Some ("Continue", "Request received, please continue")
  else if code =? 200 then Some ("OK", "Request fulfilled, document follows")
  else if code =? 301 then
    Some ("Moved Permanently", "Object moved permanently -- see URI list")
  else if code =? 304 then
    Some ("Not Modified", "Document has not changed since given time")
  else if code =? 400 then
    Some ("Bad Request", "Bad request syntax or unsupported method")
  else if code =? 404 then Some ("Not Found", "Nothing matches the given URI")
  else if code =? 501 then
    Some ("Not Implemented", "Server does not support this operation")
  else if code =? 505 then
    Some ("HTTP Version Not Supported", "Cannot fulfill request")
  else None.

(** Case-insensitive lookup in the request's headers, as [email.message]
    does it: the first field of that name. *)
Fixpoint header_get (name : string) (hs : list (string * string))
  : option string :=
  match hs with
  | [] => None
  | (k, v) :: r =>
      if String.eqb (Py.lower k) (Py.lower name) then Some v
      else header_get name r
  end.

Definition header_in (name : string) (hs : list (string * string)) : bool :=
  match header_get name hs with Some _ => true | None => false end.

(** [l] if [b] holds, nothing otherwise. *)
Definition when {A : Type} (b : bool) (l : list A) : list A :=
  if b then l else [].

(** [version != 'HTTP/0.9'] *)
Definition live (version : string) : bool :=
  negb (String.eqb version "HTTP/0.9").

(** ** [http.server.BaseHTTPRequestHandler] *)

Module Base.
Section Methods.
Context {rt : Runtime}.

Definition protocol_version : string := "HTTP/1.0".
Definition default_request_version : string := "HTTP/0.9".
Definition error_content_type : string := "text/html;charset=utf-8".

(** [self.request_version != 'HTTP/0.9'], the test that guards every
    write to the headers buffer. *)
Definition has_headers (h : handler) : bool :=
  live (request_version h).

(** The reason phrase of a status line: the [message] given, or the
    short entry of [responses]. *)
Definition phrase (code : Z) (message : option string) : string :=
  match message with
  | Some m => m
  | None => match responses code with
            | Some (short, _) => short
            | None => ""
            end
  end.

Definition send_response_only (code : Z) (message : option string)
    (h : handler) : handler :=
  if has_headers h then
    set_headers_buffer
      (headers_buffer h ++ [Status protocol_version code (phrase code message)])
      h
  else h.

Definition send_header (keyword value : string) (h : handler) : handler :=
  let h :=
    if has_headers h then
      set_headers_buffer (headers_buffer h ++ [Field keyword value]) h
    else h in
  if String.eqb (Py.lower keyword) "connection" then
    if String.eqb (Py.lower value) "close" then set_close_connection true h
    else if String.eqb (Py.lower value) "keep-alive" then
      set_close_connection false h
    else h
  else h.

Definition flush_headers (h : handler) : handler :=
  set_headers_buffer [] (set_wfile (wfile h ++ [Head (headers_buffer h)]) h).

Definition end_headers (h : handler) : handler :=
  if has_headers h then
    flush_headers
      (set_headers_buffer (headers_buffer h ++ [EndOfHeaders]) h)
  else h.

(** The methods below reach [end_headers] and [log_message] through
    [self], so a subclass's versions run. *)
Variable self : klass.

Definition dq : string := String (ascii_of_nat 34) EmptyString.

(** [log_request(code)], with [size] left at its default ['-']. *)
Definition log_request (code : Z) (h : handler) : handler :=
  k_log_message self (dq ++ "%s" ++ dq ++ " %s %s")
    [Py.VStr (requestline h); Py.VStr (Py.str_of_Z code); Py.VStr "-"] h.

Definition log_error (fmt : string) (args : list Py.value) (h : handler)
  : handler :=
  k_log_message self fmt args h.

Definition send_response (code : Z) (message : option string) (h : handler)
  : handler :=
  let h := log_request code h in
  let h := send_response_only code message h in
  let h := send_header "Server" version_string h in
  send_header "Date" (date_time_string (time_time h)) (tick h).

(** [self.command != 'HEAD'] *)
Definition wants_body (c : option string) : bool :=
  negb (match c with Some x => String.eqb x "HEAD" | None => false end).

(** The page of an error reply, [explain] at its default, the long entry
    of [responses]. *)
Definition error_body (code : Z) (message : string) : string :=
  error_page code message
    (match responses code with Some (_, long) => long | None => "???" end).

(** [send_error(code, message)], with [explain] left at its default. *)
Definition send_error (code : Z) (message : option string) (h : handler)
  : handler :=
  let shortmsg :=
    match responses code with Some (short, _) => short | None => "???" end in
  let message := match message with Some m => m | None => shortmsg end in
  let h := log_error "code %d, message %s" [Py.VInt code; Py.VStr message] h in
  let h := send_response code (Some message) h in
  let h := send_header "Connection" "close" h in
  let body_allowed :=
    (200 <=? code)
    && negb ((code =? 204) || (code =? 205) || (code =? 304)) in
  let body := error_body code message in
  let h :=
    if body_allowed then
      let h := send_header "Content-Type" error_content_type h in
      send_header "Content-Length" (Py.str_of_Z (Z.of_nat (String.length body))) h
    else h in
  let h := k_end_headers self h in
  if wants_body (command h) && body_allowed && negb (String.eqb body "")
  then set_wfile (wfile h ++ [Body body]) h
  else h.

(** [handle_expect_100] *)
Definition handle_expect_100 (h : handler) : handler :=
  k_end_headers self (send_response_only 100 None h).

End Methods.
End Base.

(** ** A request as it arrives

    A request line of two or three words, [command path] or
    [command path HTTP/major.minor], followed by header fields.  Lines of
    another shape, over-long lines and malformed header blocks take
    [parse_request]'s other error exits, which are left out. *)
Record request : Type := mkRequest {
  rq_command : string;
  rq_path : string;
  rq_version : option (Z * Z);
  rq_headers : list (string * string);
  rq_clock : nat -> Z              (* [time.time()] while it is handled,
                                      reading after reading *)
}.

Definition base_version_number (v : Z * Z) : string :=
  Py.str_of_Z (fst v) ++ "." ++ Py.str_of_Z (snd v).

Definition version_text (v : Z * Z) : string :=
  "HTTP/" ++ base_version_number v.

Definition rq_line (r : request) : string :=
  rq_command r ++ " " ++ rq_path r ++
  match rq_version r with
  | Some v => " " ++ version_text v
  | None => ""
  end.

(** The path [parse_request] stores: a run of leading slashes is reduced
    to one. *)
Definition request_path (r : request) : string :=
  if Py.startswith "//" (rq_path r)
  then "/" ++ Py.lstrip_slash (rq_path r)
  else rq_path r.

(** Python's order on pairs of integers: [a >= b]. *)
Definition version_ge (a b : Z * Z) : bool :=
  (fst b <? fst a) || ((fst a =? fst b) && (snd b <=? snd a)).

(** [a >= b] on [str]. *)
Definition str_ge (a b : string) : bool := String.leb b a.

(** [translate_path], as a function of the served directory: the kept
    words of the URL path are joined onto [root], one by one, and a
    trailing slash is put back. *)
Definition local_path {rt : Runtime} (root p : string) : string :=
  let res := fold_left Py.path_join (url_words p) root in
  if url_trailing_slash p then res ++ "/" else res.

(** ** [http.server.SimpleHTTPRequestHandler] *)

Module Simple.
Section Methods.
Context {rt : Runtime}.
Variable self : klass.
Variable fs : filesystem.

(** [__init__(self, *args, directory=None, **kwargs)]: the new handler,
    before it reads its request. *)
Definition init (dir : option string) (cwd : string) (t : nat -> Z)
    (out : list string) : handler :=
  let dir := match dir with Some d => d | None => cwd end in
  mkHandler dir "" None "" "" [] [] [] true t 0 out None.

Definition translate_path (h : handler) (p : string) : string :=
  local_path (directory h) p.

Definition list_directory (p : string) (h : handler)
  : handler * option file :=
  match fs_listing fs p (path h) with
  | None =>
      (Base.send_error self 404 (Some "No permission to list directory") h,
       None)
  | Some encoded =>
      let h := Base.send_response self 200 None h in
      let h := Base.send_header "Content-type"
                 ("text/html; charset=" ++ fs_encoding) h in
      let h := Base.send_header "Content-Length"
                 (Py.str_of_Z (Z.of_nat (String.length encoded))) h in
      let h := k_end_headers self h in
      (h, Some (mkFile encoded (Z.of_nat (String.length encoded)) 0))
  end.

(** The cache test of [send_head]: the request has an If-Modified-Since
    field and no If-None-Match field, the date parses as a UTC time, and
    the file was not modified after it. *)
Definition not_modified (hs : list (string * string)) (f : file) : bool :=
  if header_in "If-Modified-Since" hs
     && negb (header_in "If-None-Match" hs) then
    match header_get "If-Modified-Since" hs with
    | Some text =>
        match parsedate_utc text with
        | Some ims => f_mtime f <=? ims
        | None => false
        end
    | None => false
    end
  else false.

(** The tail of [send_head], once [path] names what is to be opened.
    Only an [OSError] of [open] is caught; any other exception leaves
    [send_head], and with it [do_GET] or [do_HEAD], which do nothing after
    it. *)
Definition send_file (p : string) (h : handler) : handler * option file :=
  let ctype := guess_type p in
  if Py.endswith "/" p then
    (Base.send_error self 404 (Some "File not found") h, None)
  else
    match open_rb fs p with
    | OpenFails _ =>
        (Base.send_error self 404 (Some "File not found") h, None)
    | OpenRaises x => (raise x h, None)
    | Opened f =>
        if not_modified (headers h) f then
          let h := Base.send_response self 304 None h in
          (k_end_headers self h, None)
        else
          let h := Base.send_response self 200 None h in
          let h := Base.send_header "Content-type" ctype h in
          let h := Base.send_header "Content-Length"
                     (Py.str_of_Z (f_size f)) h in
          let h := Base.send_header "Last-Modified"
                     (date_time_string (f_mtime f)) h in
          (k_end_headers self h, Some f)
    end.

Definition send_head (h : handler) : handler * option file :=
  let p := translate_path h (path h) in
  if isdir fs p then
    if negb (Py.endswith "/" (urlsplit_path (path h))) then
      let h := Base.send_response self 301 None h in
      let h := Base.send_header "Location" (redirect_url (path h)) h in
      let h := Base.send_header "Content-Length" "0" h in
      (k_end_headers self h, None)
    else if isfile fs (Py.path_join p "index.html") then
      send_file (Py.path_join p "index.html") h
    else if isfile fs (Py.path_join p "index.htm") then
      send_file (Py.path_join p "index.htm") h
    else list_directory p h
  else send_file p h.

(** [copyfile(f, self.wfile)] *)
Definition copyfile (f : file) (h : handler) : handler :=
  set_wfile (wfile h ++ [Body (f_content f)]) h.

Definition do_GET (h : handler) : handler :=
  match send_head h with
  | (h, Some f) => copyfile f h
  | (h, None) => h
  end.

Definition do_HEAD (h : handler) : handler :=
  fst (send_head h).

(** [parse_request], on the request lines of [request]: the handler
    after it and the returned truth value. *)
Definition parse_request (r : request) (h : handler) : handler * bool :=
  let h := mkHandler (directory h) (rq_line r) None (path h)
             Base.default_request_version (headers h) (headers_buffer h)
             (wfile h) true (clock h) (reads h) (stdout h) (escaped h) in
  let after_version :=
    match rq_version r with
    | Some v =>
        let h :=
          if version_ge v (1, 1) && str_ge Base.protocol_version "HTTP/1.1"
          then set_close_connection false h else h in
        if version_ge v (2, 0) then
          (Base.send_error self 505
             (Some ("Invalid HTTP version (" ++ base_version_number v ++ ")"))
             h, false)
        else (set_request_version (version_text v) h, true)
    | None => (h, true)
    end in
  match after_version with
  | (h, false) => (h, false)
  | (h, true) =>
      let bad_simple :=
        match rq_version r with
        | None => negb (String.eqb (rq_command r) "GET")
        | Some _ => false
        end in
      let h := match rq_version r with
               | None => set_close_connection true h
               | Some _ => h
               end in
      if bad_simple then
        (Base.send_error self 400
           (Some ("Bad HTTP/0.9 request type (" ++ repr (rq_command r) ++ ")"))
           h, false)
      else
        let h := set_headers (rq_headers r)
                   (set_command_path (rq_command r) (request_path r) h) in
        let conntype :=
          match header_get "Connection" (headers h) with
          | Some c => c | None => ""
          end in
        let h :=
          if String.eqb (Py.lower conntype) "close"
          then set_close_connection true h
          else if String.eqb (Py.lower conntype) "keep-alive"
                  && str_ge Base.protocol_version "HTTP/1.1"
          then set_close_connection false h
          else h in
        let expect :=
          match header_get "Expect" (headers h) with
          | Some e => e | None => ""
          end in
        let h :=
          if String.eqb (Py.lower expect) "100-continue"
             && str_ge Base.protocol_version "HTTP/1.1"
             && str_ge (request_version h) "HTTP/1.1"
          then Base.handle_expect_100 self h
          else h in
        (h, true)
  end.

(** [handle_one_request]: parse, then dispatch on ['do_' + command];
    the class has [do_GET] and [do_HEAD] and no other [do_] method. *)
Definition handle_one_request (r : request) (h : handler) : handler :=
  match parse_request r h with
  | (h, false) => h
  | (h, true) =>
      if String.eqb (rq_command r) "GET" then do_GET h
      else if String.eqb (rq_command r) "HEAD" then do_HEAD h
      else
        Base.send_error self 501
          (Some ("Unsupported method (" ++ repr (rq_command r) ++ ")")) h
  end.

End Methods.
End Simple.

(** ** [TestServerHandler], the program's handler class *)

Module TestServerHandler.
Section Methods.
Context {rt : Runtime}.

(** [os.path.abspath(p)] in working directory [cwd]. *)
Definition abspath (cwd p : string) : string :=
  if Py.startswith "/" p then normpath p
  else normpath (Py.path_join cwd p).

(** [os.path.dirname(os.path.abspath(__file__))] *)
Definition script_dir (cwd file_ : string) : string :=
  dirname (abspath cwd file_).

Definition end_headers (h : handler) : handler :=
  let h := Base.send_header "Access-Control-Allow-Origin" "*" h in
  let h := Base.send_header "Access-Control-Allow-Methods"
             "GET, POST, OPTIONS" h in
  let h := Base.send_header "Access-Control-Allow-Headers" "Content-Type" h in
  Base.end_headers h.

(** The line of a log message printed when the clock shows [t]:
    [f"[{self.log_date_time_string()}] {format % args}"]. *)
Definition log_line (t : Z) (fmt : string) (args : list Py.value) : string :=
  "[" ++ log_date_time_string t ++ "] " ++ Py.format fmt args.

(** [log_message]: [log_date_time_string()] reads the clock each time it
    is called, so every line carries the time at which it is printed. *)
Definition log_message (fmt : string) (args : list Py.value) (h : handler)
  : handler :=
  print (log_line (time_time h) fmt args) (tick h).

Definition cls : klass := mkKlass end_headers log_message.

(** [__init__]: the served directory is passed explicitly. *)
Definition init (cwd file_ : string) (t : nat -> Z) (out : list string)
  : handler :=
  Simple.init (Some (script_dir cwd file_)) cwd t out.

(** One connection: a new handler, one request, its output. *)
Definition handle (fs : filesystem) (cwd file_ : string)
    (out : list string) (r : request) : handler :=
  Simple.handle_one_request cls fs r (init cwd file_ (rq_clock r) out).

End Methods.
End TestServerHandler.

(** ** The process *)

(** Everything outside the program that a run depends on. *)
Record World : Type := mkWorld {
  w_file : string;                       (* __file__ *)
  w_cwd : string;                        (* the working directory at launch *)
  w_bind : Z -> bind_result;             (* binding ("", port) *)
  w_chdir : string -> option OSError;    (* os.chdir: None when it succeeds *)
  w_fs : filesystem;
  w_connections : Z -> list request;     (* what the loop on a port serves *)
  w_serve_end : Z -> serve_end           (* and how that loop ends *)
}.

(** What a run does, in order. *)
Inductive event : Type :=
| EvBind (port : Z)            (* TCPServer(("", port), ...) is attempted *)
| EvPrint (line : string)      (* a line on standard output *)
| EvChdir (dir : string)       (* os.chdir(dir) is called *)
| EvServe (port : Z)           (* serve_forever is entered *)
| EvReply (out : list chunk)   (* a response is written to a client *)
| EvClose (port : Z).          (* the with statement closes the server *)

(** How a block of statements ends. *)
Inductive completion : Type :=
| Normal
| RaisedOSError (e : OSError)
| RaisedKeyboardInterrupt
| Blocked.                     (* it never ends *)

(** How [main] ends. *)
Inductive outcome : Type :=
| Returned                     (* main returns; the interpreter exits *)
| SysExit (code : Z)           (* sys.exit(code) *)
| KeyboardInterruptEscapes     (* the exception leaves main uncaught *)
| Serving.                     (* main never ends *)

(** The status the process ends with, [None] when it does not end.  An
    uncaught [KeyboardInterrupt] makes CPython print the traceback and end
    the process by the signal itself; a shell reports that as 128 + 2. *)
Definition exit_status (o : outcome) : option Z :=
  match o with
  | Returned => Some 0
  | SysExit code => Some code
  | KeyboardInterruptEscapes => Some 130
  | Serving => None
  end.

Record result : Type := mkResult {
  res_outcome : outcome;
  res_trace : list event;
  res_cwd : string               (* the working directory at the end *)
}.

(** [range(a, b)] *)
Definition range (a b : Z) : list Z :=
  map (fun i => a + Z.of_nat i) (seq 0 (Z.to_nat (b - a))).

Definition stdout_of (tr : list event) : list string :=
  flat_map (fun e => match e with EvPrint l => [l] | _ => [] end) tr.

Section Process.
Context {rt : Runtime}.
Variable w : World.

(** What one connection adds to the trace: the lines printed and what
    is written to the client.  Where an exception leaves the handler,
    [socketserver] catches it, reports it on the standard error stream,
    closes the connection and goes on serving; nothing was written. *)
Definition connection_events (cwd : string) (r : request) : list event :=
  let h := TestServerHandler.handle (w_fs w) cwd (w_file w) [] r in
  (map EvPrint (stdout h) ++ [EvReply (wfile h)])%list.

(** [httpd.serve_forever()] *)
Definition serve_forever (port : Z) (cwd : string)
  : completion * list event :=
  let evs := EvServe port
             :: flat_map (connection_events cwd) (w_connections w port) in
  match w_serve_end w port with
  | Interrupted => (RaisedKeyboardInterrupt, evs)
  | ServeFails e => (RaisedOSError e, evs)
  | ShutDown => (Normal, evs)
  | Forever => (Blocked, evs)
  end.

Definition banner (port : Z) : list event :=
  [ EvPrint ("Starting test server at http://localhost:"
             ++ Py.str_of_Z port ++ "/");
    EvPrint ("Test page available at: http://localhost:"
             ++ Py.str_of_Z port ++ "/test-elements.html");
    EvPrint "Press Ctrl+C to stop the server" ].

(** The body of the [try]: the [with] statement of lines 33-42. *)
Definition try_body (port : Z) (cwd : string)
  : completion * list event * string :=
  match w_bind w port with
  | BindFails e => (RaisedOSError e, [EvBind port], cwd)
  | Bound =>
      let dir := TestServerHandler.script_dir cwd (w_file w) in
      let pre := (EvBind port :: banner port ++ [EvChdir dir])%list in
      match w_chdir w dir with
      | Some e => (RaisedOSError e, (pre ++ [EvClose port])%list, cwd)
      | None =>
          let '(c, evs) := serve_forever port dir in
          match c with
          | Blocked => (Blocked, (pre ++ evs)%list, dir)
          | _ => (c, (pre ++ evs ++ [EvClose port])%list, dir)
          end
      end
  end.

(** [e.errno == 98] *)
Definition errno_is_98 (e : OSError) : bool :=
  match errno e with
  | Some n => n =? 98
  | None => false
  end.

Definition busy_line (port : Z) : string :=
  "Port " ++ Py.str_of_Z port ++ " is busy, trying "
  ++ Py.str_of_Z (port + 1).

Definition error_line (port : Z) (e : OSError) : string :=
  "Error starting server on port " ++ Py.str_of_Z port ++ ": " ++ os_str e.

(** The [for ... else] of lines 31-53 over the ports still to try. *)
Fixpoint scan (ports : list Z) (cwd : string) : result :=
  match ports with
  | [] =>
      mkResult (SysExit 1) [EvPrint "Could not find an available port"] cwd
  | port :: rest =>
      let '(c, evs, cwd') := try_body port cwd in
      match c with
      | Normal => mkResult Returned evs cwd'
      | RaisedKeyboardInterrupt => mkResult KeyboardInterruptEscapes evs cwd'
      | Blocked => mkResult Serving evs cwd'
      | RaisedOSError e =>
          if errno_is_98 e then
            let r := scan rest cwd' in
            mkResult (res_outcome r)
              (evs ++ EvPrint (busy_line port) :: res_trace r)%list
              (res_cwd r)
          else
            mkResult (SysExit 1)
              (evs ++ [EvPrint (error_line port e)])%list
              cwd'
      end
  end.

(** What a run of busy ports leaves in the trace. *)
Definition busy_events (ports : list Z) : list event :=
  flat_map (fun p => [EvBind p; EvPrint (busy_line p)]) ports.

(** The port is taken, with the code the program looks for. *)
Definition in_use (p : Z) : Prop :=
  exists e, w_bind w p = BindFails e /\ errno e = Some 98.

(** The events of a successful bind, up to the change of directory. *)
Definition startup (p : Z) (cwd : string) : list event :=
  (EvBind p :: banner p
   ++ [EvChdir (TestServerHandler.script_dir cwd (w_file w))])%list.

Definition is_chdir (e : event) : bool :=
  match e with EvChdir _ => true | _ => false end.

Definition no_chdir (l : list event) : Prop :=
  Forall (fun e => is_chdir e = false) l.

(** The working directory after the events of [tr], starting from [c]:
    a call of [os.chdir] that succeeds moves it. *)
Fixpoint cwd_after (c : string) (tr : list event) : string :=
  match tr with
  | [] => c
  | EvChdir d :: tr' =>
      cwd_after (match w_chdir w d with None => d | Some _ => c end) tr'
  | _ :: tr' => cwd_after c tr'
  end.

(** The events that can stand anywhere in a run: all but a bind that
    succeeds, a change of directory and the start of the serve loop. *)
Definition passes (e : event) : bool :=
  match e with
  | EvBind p =>
      match w_bind w p with
      | Bound => false
      | BindFails _ => true
      end
  | EvChdir _ | EvServe _ => false
  | _ => true
  end.


Definition main_from (PORT : Z) : result :=
  scan (range PORT (PORT + 10)) (w_cwd w).

Definition PORT : Z := 8080.

Definition main : result := main_from PORT.

End Process.

(** ** Reading a run *)

(** The ports on which a bind was attempted, in order. *)
Definition bind_attempts (tr : list event) : list Z :=
  flat_map (fun e => match e with EvBind p => [p] | _ => [] end) tr.

(** One event's effect on the server sockets that are open: a bind that
    succeeds opens one, closing the server releases it. *)
Definition socket_step (w : World) (open : list Z) (e : event) : list Z :=
  match e with
  | EvBind p =>
      match w_bind w p with
      | Bound => p :: open
      | BindFails _ => open
      end
  | EvClose p => remove Z.eq_dec p open
  | _ => open
  end.

(** The server sockets open after the events of [tr]. *)
Definition listening (w : World) (open : list Z) (tr : list event)
  : list Z :=
  fold_left (socket_step w) tr open.

(** The largest number of server sockets open at any moment of [tr]. *)
Fixpoint peak (w : World) (open : list Z) (tr : list event) : nat :=
  match tr with
  | [] => List.length open
  | e :: tr' => Nat.max (List.length open) (peak w (socket_step w open e) tr')
  end.

(** Events that neither open nor close a server socket, nor try to. *)
Definition quiet (e : event) : bool :=
  match e with
  | EvBind _ | EvClose _ => false
  | _ => true
  end.

Section Attempts.
Context {rt : Runtime}.
Variable w : World.

(** The three ways an attempt on port [p] can go. *)
Inductive attempt (p : Z) (cwd : string)
  : completion -> list event -> string -> Prop :=
| Attempt_unbound e :
    w_bind w p = BindFails e ->
    attempt p cwd (RaisedOSError e) [EvBind p] cwd
| Attempt_stuck e :
    w_bind w p = Bound ->
    w_chdir w (TestServerHandler.script_dir cwd (w_file w)) = Some e ->
    attempt p cwd (RaisedOSError e) (startup w p cwd ++ [EvClose p]) cwd
| Attempt_served c :
    w_bind w p = Bound ->
    w_chdir w (TestServerHandler.script_dir cwd (w_file w)) = None ->
    c = match w_serve_end w p with
        | Interrupted => RaisedKeyboardInterrupt
        | ServeFails e => RaisedOSError e
        | ShutDown => Normal
        | Forever => Blocked
        end ->
    attempt p cwd c
      (startup w p cwd
       ++ EvServe p
       :: flat_map (connection_events w
                      (TestServerHandler.script_dir cwd (w_file w)))
            (w_connections w p)
       ++ match c with Blocked => [] | _ => [EvClose p] end)
      (TestServerHandler.script_dir cwd (w_file w)).

End Attempts.

(** ** Reading a response *)

(** The three header fields that [TestServerHandler.end_headers] adds. *)
Definition cors_fields : list hline :=
  [ Field "Access-Control-Allow-Origin" "*";
    Field "Access-Control-Allow-Methods" "GET, POST, OPTIONS";
    Field "Access-Control-Allow-Headers" "Content-Type" ].

(** A header field of the Access-Control family, whatever its case. *)
Definition is_cors (l : hline) : bool :=
  match l with
  | Field k _ => Py.startswith "access-control-" (Py.lower k)
  | _ => false
  end.

Definition is_head (c : chunk) : bool :=
  match c with Head _ => true | Body _ => false end.




(** ** The two kinds of reply *)

Section Replies.
Context {rt : Runtime}.

(** The log line of [log_request]. *)
Definition request_log (t : Z) (line : string) (code : Z) : string :=
  TestServerHandler.log_line t (Base.dq ++ "%s" ++ Base.dq ++ " %s %s")
    [Py.VStr line; Py.VStr (Py.str_of_Z code); Py.VStr "-"].

(** The log line of [send_error]. *)
Definition error_log (t : Z) (code : Z) (m : string) : string :=
  TestServerHandler.log_line t "code %d, message %s"
    [Py.VInt code; Py.VStr m].

(** What [send_response] puts in the headers buffer. *)
Definition opening (t : Z) (code : Z) (m : string) : list hline :=
  [Status Base.protocol_version code m;
   Field "Server" version_string;
   Field "Date" (date_time_string t)].

(** What [send_error] adds for a reply with a page. *)
Definition error_fields (code : Z) (m : string) : list hline :=
  [Field "Connection" "close";
   Field "Content-Type" Base.error_content_type;
   Field "Content-Length"
     (Py.str_of_Z (Z.of_nat (String.length (Base.error_body code m))))].

(** The handler [h], fresh from parsing, after a reply made with
    [send_response], header fields [fields] and [end_headers], and the
    writes [body].  The clock is read twice: for the log line, then for
    the Date field. *)
Definition answered (h : handler) (code : Z) (fields : list hline)
    (body : list chunk) : handler :=
  mkHandler (directory h) (requestline h) (command h) (path h)
    (request_version h) (headers h) []
    (when (live (request_version h))
       [Head (opening (clock h (S (reads h))) code (Base.phrase code None)
              ++ fields ++ cors_fields ++ [EndOfHeaders])] ++ body)
    (close_connection h) (clock h) (S (S (reads h)))
    (stdout h ++ [request_log (clock h (reads h)) (requestline h) code])
    (escaped h).

(** The handler [h], fresh from parsing, after [send_error].  The clock
    is read three times: for each of the two log lines, then for the Date
    field. *)
Definition refused (h : handler) (code : Z) (m : string) : handler :=
  mkHandler (directory h) (requestline h) (command h) (path h)
    (request_version h) (headers h) []
    (when (live (request_version h))
       [Head (opening (clock h (S (S (reads h)))) code m
              ++ error_fields code m ++ cors_fields ++ [EndOfHeaders])]
     ++ when (Base.wants_body (command h)
              && negb (String.eqb (Base.error_body code m) ""))
          [Body (Base.error_body code m)])
    true (clock h) (S (S (S (reads h))))
    (stdout h ++ [error_log (clock h (reads h)) code m;
                  request_log (clock h (S (reads h))) (requestline h) code])
    (escaped h).

(** Nothing buffered and nothing written yet. *)
Definition fresh (h : handler) : Prop :=
  headers_buffer h = [] /\ wfile h = [].

(** What handling a request makes of the handler [h] that received it:
    one reply of either kind, or nothing at all where [open] raised an
    exception that nothing catches. *)
Inductive reply_of (fs : filesystem) (h : handler) : handler -> Prop :=
| Reply_answered code fields body :
    In code [200; 301; 304] ->
    filter is_cors fields = [] ->
    existsb is_head body = false ->
    reply_of fs h (answered h code fields body)
| Reply_refused code m :
    400 <= code ->
    reply_of fs h (refused h code m)
| Reply_none x q :
    open_rb fs q = OpenRaises x ->
    reply_of fs h (raise x h).

(** [parse_request] lets the request through to a [do_] method. *)
Definition accepted (r : request) : bool :=
  match rq_version r with
  | Some v => negb (version_ge v (2, 0))
  | None => String.eqb (rq_command r) "GET"
  end.

(** The [request_version] that [parse_request] leaves. *)
Definition settled_version (r : request) : string :=
  match rq_version r with
  | Some v => if version_ge v (2, 0) then "HTTP/0.9" else version_text v
  | None => "HTTP/0.9"
  end.

(** The handler at the moment it replies to [r]: as [parse_request]
    leaves it when it accepts [r], and as it is when [parse_request]
    itself refuses [r]. *)
Definition received (cwd file_ : string) (out : list string) (r : request)
  : handler :=
  mkHandler (TestServerHandler.script_dir cwd file_) (rq_line r)
    (if accepted r then Some (rq_command r) else None)
    (if accepted r then request_path r else "")
    (settled_version r)
    (if accepted r then rq_headers r else [])
    [] [] true (rq_clock r) 0 out None.

End Replies.

(** ** A concrete runtime and world, for closed examples *)

Module Demo.

(** [posixpath.dirname] on a path with a directory part: what is before
    the last slash. *)
Fixpoint drop_last (s : string) : string :=
  match s with
  | EmptyString => EmptyString
  | String c r =>
      if existsb (Ascii.eqb "/") (list_ascii_of_string r)
      then String c (drop_last r)
      else EmptyString
  end.

(** Splitting a URL path at its slashes, empty words dropped. *)
Fixpoint words_from (acc : string) (s : string) : list string :=
  match s with
  | EmptyString => if String.eqb acc "" then [] else [acc]
  | String c r =>
      if Ascii.eqb c "/" then
        (if String.eqb acc "" then [] else [acc]) ++ words_from "" r
      else words_from (acc ++ String c EmptyString) r
  end%list.

(** [urllib.parse.unquote], for the one escape the examples use: [%00]
    is the null byte. *)
Fixpoint unquote (s : string) : string :=
  match s with
  | String "%" (String "0" (String "0" r)) => String zero (unquote r)
  | String c r => String c (unquote r)
  | EmptyString => EmptyString
  end.

#[export] Instance runtime : Runtime := {
  normpath := fun p => p;
  dirname := drop_last;
  url_words := fun p => words_from "" (unquote p);
  url_trailing_slash := Py.endswith "/";
  urlsplit_path := fun p => p;
  redirect_url := fun p => p ++ "/";
  guess_type := fun p =>
    if Py.endswith ".html" p then "text/html"
    else "application/octet-stream";
  version_string := "SimpleHTTP/0.6 Python/3.11.2";
  date_time_string := fun t => "GMT " ++ Py.str_of_Z t;
  log_date_time_string := fun t => "local " ++ Py.str_of_Z t;
  repr := fun s => "'" ++ s ++ "'";
  error_page := fun code message explain =>
    "<h1>" ++ Py.str_of_Z code ++ " " ++ message ++ "</h1><p>"
    ++ explain ++ "</p>";
  parsedate_utc := fun s =>
    if String.eqb s "Thu, 01 Jan 2026 00:00:00 GMT" then Some 1767225600
    else None;
  fs_encoding := "utf-8"
}.

Definition ENOENT : OSError :=
  mkOSError (Some 2) "[Errno 2] No such file or directory".

Definition page : file :=
  mkFile "<html>test elements</html>" 26 1700000000.

(** A tree with [/srv/app/test-elements.html] and the directory
    [/srv/app/assets].  Opening a path with a null byte raises
    [ValueError]; opening any other path that is not there fails with
    [ENOENT]. *)
Definition fs : filesystem := {|
  isdir := fun p =>
    String.eqb p "/srv/app" || String.eqb p "/srv/app/"
    || String.eqb p "/srv/app/assets" || String.eqb p "/srv/app/assets/";
  isfile := fun p => String.eqb p "/srv/app/test-elements.html";
  open_rb := fun p =>
    if String.eqb p "/srv/app/test-elements.html" then Opened page
    else if existsb (Ascii.eqb zero) (list_ascii_of_string p)
    then OpenRaises (ValueError "embedded null byte")
    else OpenFails ENOENT;
  fs_listing := fun p shown =>
    if String.eqb p "/srv/app/assets/" then Some ("<ul>" ++ shown ++ "</ul>")
    else None
|}.

Definition EADDRINUSE : OSError :=
  mkOSError (Some 98) "[Errno 98] Address already in use".

Definition EACCES : OSError :=
  mkOSError (Some 13) "[Errno 13] Permission denied".

(** The address-in-use error as macOS numbers it. *)
Definition EADDRINUSE_darwin : OSError :=
  mkOSError (Some 48) "[Errno 48] Address already in use".

(** A clock that shows [t] at first and a second more at each later
    reading. *)
Definition ticking (t : Z) : nat -> Z := fun n => t + Z.of_nat n.

Definition get (p : string) (v : option (Z * Z)) (t : Z) : request :=
  mkRequest "GET" p v [] (ticking t).

(** A world in which the ports in [busy] are taken, the ports in
    [denied] may not be bound, every other port binds, and the loop on
    a port serves [reqs] and then ends as [ending] says. *)
Definition world (busy denied : list Z) (in_use : OSError)
    (reqs : list request) (ending : serve_end) : World := {|
  w_file := "/srv/app/test-server.py";
  w_cwd := "/home/user";
  w_bind := fun p =>
    if existsb (Z.eqb p) busy then BindFails in_use
    else if existsb (Z.eqb p) denied then BindFails EACCES
    else Bound;
  w_chdir := fun _ => None;
  w_fs := fs;
  w_connections := fun _ => reqs;
  w_serve_end := fun _ => ending
|}.

(** The world [w], except that [os.chdir] fails with [e]. *)
Definition no_entry (w : World) (e : OSError) : World :=
  mkWorld (w_file w) (w_cwd w) (w_bind w) (fun _ => Some e) (w_fs w)
    (w_connections w) (w_serve_end w).

End Demo.

(** * Properties *)

Arguments Py.str_of_Z : simpl never.

(** ** The port scan *)

Lemma errno_is_98_spec (e : OSError) :
  errno_is_98 e = true <-> errno e = Some 98.
Proof.
  unfold errno_is_98. destruct (errno e) as [n|].
  - rewrite Z.eqb_eq. split; [intros ->; reflexivity | congruence].
  - split; discriminate.
Qed.

Lemma errno_is_98_false (e : OSError) :
  errno e <> Some 98 -> errno_is_98 e = false.
Proof.
  intros H. destruct (errno_is_98 e) eqn:E; [|reflexivity].
  apply errno_is_98_spec in E. contradiction.
Qed.

Lemma range_nil (a : Z) : range a a = [].
Proof. unfold range. rewrite Z.sub_diag. reflexivity. Qed.

Lemma range_cons (a b : Z) : a < b -> range a b = a :: range (a + 1) b.
Proof.
  intros H. unfold range.
  replace (Z.to_nat (b - a)) with (S (Z.to_nat (b - (a + 1)))) by lia.
  cbn [seq map]. f_equal; [lia|].
  rewrite <- seq_shift, map_map. apply map_ext. intros i. lia.
Qed.

Lemma range_app (a b c : Z) :
  a <= b -> b <= c -> range a c = (range a b ++ range b c)%list.
Proof.
  intros Hab Hbc.
  remember (Z.to_nat (b - a)) as n eqn:En.
  revert a Hab En. induction n as [|n IH]; intros a Hab En.
  - assert (a = b) by lia. subst. rewrite range_nil. reflexivity.
  - rewrite (range_cons a c) by lia. rewrite (range_cons a b) by lia.
    cbn [app]. f_equal. apply IH; lia.
Qed.

Lemma range_In (a b p : Z) : In p (range a b) <-> a <= p < b.
Proof.
  unfold range. rewrite in_map_iff. split.
  - intros (i & <- & Hi). apply in_seq in Hi. lia.
  - intros H. exists (Z.to_nat (p - a)). split; [lia|]. apply in_seq. lia.
Qed.

Section Scan.
Context {rt : Runtime}.
Variable w : World.

Lemma try_body_fails p cwd e :
  w_bind w p = BindFails e ->
  try_body w p cwd = (RaisedOSError e, [EvBind p], cwd).
Proof. intros H. unfold try_body. rewrite H. reflexivity. Qed.

Lemma scan_in_use p rest cwd :
  in_use w p ->
  scan w (p :: rest) cwd =
  mkResult (res_outcome (scan w rest cwd))
    (EvBind p :: EvPrint (busy_line p) :: res_trace (scan w rest cwd))
    (res_cwd (scan w rest cwd)).
Proof.
  intros (e & Hb & He). cbn [scan].
  rewrite (try_body_fails _ _ _ Hb).
  apply errno_is_98_spec in He. rewrite He. reflexivity.
Qed.

Lemma scan_fatal p rest cwd e :
  w_bind w p = BindFails e -> errno e <> Some 98 ->
  scan w (p :: rest) cwd =
  mkResult (SysExit 1) [EvBind p; EvPrint (error_line p e)] cwd.
Proof.
  intros Hb He. cbn [scan].
  rewrite (try_body_fails _ _ _ Hb), (errno_is_98_false _ He).
  reflexivity.
Qed.

Lemma scan_busy_prefix pre rest cwd :
  Forall (in_use w) pre ->
  scan w (pre ++ rest) cwd =
  mkResult (res_outcome (scan w rest cwd))
    (busy_events pre ++ res_trace (scan w rest cwd))
    (res_cwd (scan w rest cwd)).
Proof.
  induction 1 as [|p pre Hp _ IH]; cbn [app busy_events flat_map].
  - destruct (scan w rest cwd); reflexivity.
  - rewrite (scan_in_use _ _ _ Hp), IH. reflexivity.
Qed.

Lemma scan_bound p rest cwd :
  w_bind w p = Bound ->
  exists tl,
    res_trace (scan w (p :: rest) cwd) = (startup w p cwd ++ tl)%list /\
    (w_chdir w (TestServerHandler.script_dir cwd (w_file w)) = None ->
     exists tl', tl = EvServe p :: tl').
Proof.
  intros Hb. cbn [scan]. unfold try_body. rewrite Hb.
  fold (startup w p cwd).
  destruct (w_chdir w _) as [e|] eqn:Hc.
  - destruct (errno_is_98 e).
    + eexists. split; [cbn [res_trace]; rewrite <- app_assoc; reflexivity|].
      discriminate.
    + eexists. split; [cbn [res_trace]; rewrite <- app_assoc; reflexivity|].
      discriminate.
  - unfold serve_forever.
    destruct (w_serve_end w p) as [|e| |]; cbn [res_trace].
    + eexists. split; [reflexivity|]. intros _. eexists. reflexivity.
    + destruct (errno_is_98 e); cbn [res_trace].
      * eexists. split; [rewrite <- app_assoc; reflexivity|].
        intros _. eexists. reflexivity.
      * eexists. split; [rewrite <- app_assoc; reflexivity|].
        intros _. eexists. reflexivity.
    + eexists. split; [reflexivity|]. intros _. eexists. reflexivity.
    + eexists. split; [reflexivity|]. intros _. eexists. reflexivity.
Qed.

End Scan.

Lemma In_busy_events_bind (l : list Z) (p : Z) :
  In (EvBind p) (busy_events l) -> In p l.
Proof.
  unfold busy_events. rewrite in_flat_map. intros (q & Hq & Hin).
  cbn in Hin. destruct Hin as [E | [E | []]]; [|discriminate].
  injection E as ->. exact Hq.
Qed.

Lemma busy_events_no_serve (l : list Z) (p : Z) :
  ~ In (EvServe p) (busy_events l).
Proof.
  unfold busy_events. rewrite in_flat_map. intros (q & _ & Hin).
  cbn in Hin. destruct Hin as [E | [E | []]]; discriminate.
Qed.

Lemma range_3 (P : Z) :
  range P (P + 10) = P :: (P + 1) :: (P + 2) :: range (P + 3) (P + 10).
Proof.
  rewrite (range_cons P) by lia.
  rewrite (range_cons (P + 1)) by lia.
  rewrite (range_cons (P + 1 + 1)) by lia.
  replace (P + 1 + 1) with (P + 2) by lia.
  replace (P + 2 + 1) with (P + 3) by lia.
  reflexivity.
Qed.

(** C1.  When the preferred port [P] is free, the first thing the run does
    is bind [P], and it succeeds; the three banner lines, which name port
    [P] and the URL http://localhost:P/test-elements.html, are printed
    next; only then does the process change directory and, that done,
    enter the serve loop on [P]. *)
Theorem preferred_port_free_binds_first {rt : Runtime} (w : World) (P : Z) :
  w_bind w P = Bound ->
  exists tl,
    res_trace (main_from w P) =
      EvBind P
      :: EvPrint ("Starting test server at http://localhost:"
                  ++ Py.str_of_Z P ++ "/")
      :: EvPrint ("Test page available at: http://localhost:"
                  ++ Py.str_of_Z P ++ "/test-elements.html")
      :: EvPrint "Press Ctrl+C to stop the server"
      :: EvChdir (TestServerHandler.script_dir (w_cwd w) (w_file w))
      :: tl
    /\ (w_chdir w (TestServerHandler.script_dir (w_cwd w) (w_file w)) = None ->
        exists tl', tl = EvServe P :: tl').
Proof.
  intros Hb. unfold main_from. rewrite (range_cons P) by lia.
  destruct (scan_bound w P (range (P + 1) (P + 10)) (w_cwd w) Hb)
    as (tl & Htr & Hserve).
  exists tl. split; [exact Htr | exact Hserve].
Qed.

Lemma preferred_port_free_binds_first_witness :
  let w := Demo.world [] [] Demo.EADDRINUSE [] Forever in
  w_bind w 8080 = Bound /\
  exists tl,
    res_trace (main (rt := Demo.runtime) w) =
      EvBind 8080
      :: EvPrint "Starting test server at http://localhost:8080/"
      :: EvPrint
           "Test page available at: http://localhost:8080/test-elements.html"
      :: EvPrint "Press Ctrl+C to stop the server"
      :: EvChdir "/srv/app"
      :: tl
    /\ (w_chdir w "/srv/app" = None -> exists tl', tl = EvServe 8080 :: tl').
Proof.
  split; [reflexivity|].
  apply (preferred_port_free_binds_first (rt := Demo.runtime)
           (Demo.world [] [] Demo.EADDRINUSE [] Forever) 8080).
  reflexivity.
Defined.

(** C3.  When [P] and [P+1] are in use and [P+2] is free, the run tries
    [P], logs that it is busy, tries [P+1], logs that it is busy, and binds
    [P+2]: two busy lines, in port order, with nothing between an attempt
    and the next but the log line, then the banner for [P+2]. *)
Theorem two_busy_ports_then_bind {rt : Runtime} (w : World) (P : Z) :
  in_use w P -> in_use w (P + 1) -> w_bind w (P + 2) = Bound ->
  exists tl,
    res_trace (main_from w P) =
      (EvBind P
       :: EvPrint ("Port " ++ Py.str_of_Z P ++ " is busy, trying "
                   ++ Py.str_of_Z (P + 1))
       :: EvBind (P + 1)
       :: EvPrint ("Port " ++ Py.str_of_Z (P + 1) ++ " is busy, trying "
                   ++ Py.str_of_Z (P + 1 + 1))
       :: EvBind (P + 2)
       :: banner (P + 2)
       ++ EvChdir (TestServerHandler.script_dir (w_cwd w) (w_file w))
       :: tl)%list
    /\ (w_chdir w (TestServerHandler.script_dir (w_cwd w) (w_file w)) = None ->
        exists tl', tl = EvServe (P + 2) :: tl').
Proof.
  intros H0 H1 Hb. unfold main_from. rewrite range_3.
  change (P :: P + 1 :: P + 2 :: range (P + 3) (P + 10))
    with ([P; P + 1] ++ (P + 2) :: range (P + 3) (P + 10))%list.
  rewrite scan_busy_prefix by (repeat constructor; assumption).
  destruct (scan_bound w (P + 2) (range (P + 3) (P + 10)) (w_cwd w) Hb)
    as (tl & Htr & Hserve).
  exists tl. split; [|exact Hserve].
  cbn [res_trace]. rewrite Htr. unfold startup.
  cbn [busy_events flat_map app]. rewrite <- app_assoc. reflexivity.
Qed.

Lemma two_busy_ports_then_bind_witness :
  let w := Demo.world [8080; 8081] [] Demo.EADDRINUSE [] Forever in
  exists tl,
    res_trace (main (rt := Demo.runtime) w) =
      EvBind 8080
      :: EvPrint "Port 8080 is busy, trying 8081"
      :: EvBind 8081
      :: EvPrint "Port 8081 is busy, trying 8082"
      :: EvBind 8082
      :: EvPrint "Starting test server at http://localhost:8082/"
      :: EvPrint
           "Test page available at: http://localhost:8082/test-elements.html"
      :: EvPrint "Press Ctrl+C to stop the server"
      :: EvChdir "/srv/app"
      :: tl
    /\ (w_chdir w "/srv/app" = None -> exists tl', tl = EvServe 8082 :: tl').
Proof.
  apply (two_busy_ports_then_bind (rt := Demo.runtime)
           (Demo.world [8080; 8081] [] Demo.EADDRINUSE [] Forever) 8080).
  - exists Demo.EADDRINUSE. split; reflexivity.
  - exists Demo.EADDRINUSE. split; reflexivity.
  - reflexivity.
Defined.

(** C4.  When all ten candidate ports [P .. P+9] (8080 .. 8089 for [main])
    are in use, every one of them is tried and logged as busy, no bind
    succeeds and the serve loop is never entered, the line "Could not find
    an available port" is printed last, and the process ends through
    [sys.exit(1)]. *)
Theorem all_ports_busy_exits {rt : Runtime} (w : World) (P : Z) :
  (forall p, P <= p < P + 10 -> in_use w p) ->
  res_trace (main_from w P) =
    (busy_events (range P (P + 10))
     ++ [EvPrint "Could not find an available port"])%list
  /\ res_outcome (main_from w P) = SysExit 1
  /\ exit_status (res_outcome (main_from w P)) = Some 1
  /\ (forall p, In (EvBind p) (res_trace (main_from w P)) ->
      w_bind w p <> Bound)
  /\ (forall p, ~ In (EvServe p) (res_trace (main_from w P)))
  /\ res_cwd (main_from w P) = w_cwd w.
Proof.
  intros Hall.
  assert (Hrun : main_from w P =
                 mkResult (SysExit 1)
                   (busy_events (range P (P + 10))
                    ++ [EvPrint "Could not find an available port"])
                   (w_cwd w)).
  { unfold main_from.
    rewrite <- (app_nil_r (range P (P + 10))) at 1.
    rewrite scan_busy_prefix; [reflexivity|].
    apply Forall_forall. intros p Hp. apply Hall, range_In, Hp. }
  rewrite Hrun. cbn [res_trace res_outcome res_cwd exit_status].
  repeat split.
  - intros p Hin Hb. apply in_app_or in Hin. destruct Hin as [Hin | Hin].
    + apply In_busy_events_bind, range_In, Hall in Hin.
      destruct Hin as (e & He & _). congruence.
    + destruct Hin as [E | []]. discriminate.
  - intros p Hin. apply in_app_or in Hin. destruct Hin as [Hin | Hin].
    + exact (busy_events_no_serve _ _ Hin).
    + destruct Hin as [E | []]. discriminate.
Qed.

Lemma all_ports_busy_exits_witness :
  let w := Demo.world (range 8080 8090) [] Demo.EADDRINUSE [] Forever in
  res_trace (main (rt := Demo.runtime) w) =
    (busy_events (range 8080 8090)
     ++ [EvPrint "Could not find an available port"])%list
  /\ res_outcome (main (rt := Demo.runtime) w) = SysExit 1
  /\ exit_status (res_outcome (main (rt := Demo.runtime) w)) = Some 1
  /\ (forall p, In (EvBind p) (res_trace (main (rt := Demo.runtime) w)) ->
      w_bind w p <> Bound)
  /\ (forall p, ~ In (EvServe p) (res_trace (main (rt := Demo.runtime) w)))
  /\ res_cwd (main (rt := Demo.runtime) w) = "/home/user".
Proof.
  apply (all_ports_busy_exits (rt := Demo.runtime)
           (Demo.world (range 8080 8090) [] Demo.EADDRINUSE [] Forever) 8080).
  intros p Hp. exists Demo.EADDRINUSE. split; [|reflexivity].
  assert (Hc : p = 8080 \/ p = 8081 \/ p = 8082 \/ p = 8083 \/ p = 8084
               \/ p = 8085 \/ p = 8086 \/ p = 8087 \/ p = 8088 \/ p = 8089)
    by lia.
  repeat (destruct Hc as [-> | Hc]; [reflexivity|]). subst p. reflexivity.
Defined.

(** C5.  When the first [k] candidate ports are in use and binding the
    next one, [P+k], fails with an [OSError] whose [errno] is not 98
    (permission denied, say), the run prints "Error starting server on
    port ..." with the error, ends through [sys.exit(1)], and tries no
    port after [P+k]. *)
Theorem other_bind_error_is_fatal {rt : Runtime} (w : World) (P k : Z)
    (e : OSError) :
  0 <= k < 10 ->
  (forall p, P <= p < P + k -> in_use w p) ->
  w_bind w (P + k) = BindFails e ->
  errno e <> Some 98 ->
  res_trace (main_from w P) =
    (busy_events (range P (P + k))
     ++ [EvBind (P + k);
         EvPrint ("Error starting server on port " ++ Py.str_of_Z (P + k)
                  ++ ": " ++ os_str e)])%list
  /\ res_outcome (main_from w P) = SysExit 1
  /\ exit_status (res_outcome (main_from w P)) = Some 1
  /\ (forall q, In (EvBind q) (res_trace (main_from w P)) -> q <= P + k).
Proof.
  intros Hk Hbusy Hb He.
  assert (Hrun : main_from w P =
                 mkResult (SysExit 1)
                   (busy_events (range P (P + k))
                    ++ [EvBind (P + k); EvPrint (error_line (P + k) e)])
                   (w_cwd w)).
  { unfold main_from.
    rewrite (range_app P (P + k) (P + 10)) by lia.
    rewrite (range_cons (P + k)) by lia.
    rewrite scan_busy_prefix.
    - rewrite (scan_fatal w _ _ _ e Hb He). reflexivity.
    - apply Forall_forall. intros p Hp. apply Hbusy, range_In, Hp. }
  rewrite Hrun. cbn [res_trace res_outcome exit_status].
  repeat split.
  intros q Hin. apply in_app_or in Hin. destruct Hin as [Hin | Hin].
  - apply In_busy_events_bind, range_In in Hin. lia.
  - destruct Hin as [E | [E | []]]; [|discriminate].
    injection E as <-. lia.
Qed.

Lemma other_bind_error_is_fatal_witness :
  let w := Demo.world [8080; 8081] [8082] Demo.EADDRINUSE [] Forever in
  res_trace (main (rt := Demo.runtime) w) =
    [EvBind 8080; EvPrint "Port 8080 is busy, trying 8081";
     EvBind 8081; EvPrint "Port 8081 is busy, trying 8082";
     EvBind 8082;
     EvPrint "Error starting server on port 8082: [Errno 13] Permission denied"]
  /\ res_outcome (main (rt := Demo.runtime) w) = SysExit 1
  /\ exit_status (res_outcome (main (rt := Demo.runtime) w)) = Some 1
  /\ (forall q, In (EvBind q) (res_trace (main (rt := Demo.runtime) w)) ->
      q <= 8080 + 2).
Proof.
  apply (other_bind_error_is_fatal (rt := Demo.runtime)
           (Demo.world [8080; 8081] [8082] Demo.EADDRINUSE [] Forever)
           8080 2 Demo.EACCES).
  - lia.
  - intros p Hp. exists Demo.EADDRINUSE. split; [|reflexivity].
    assert (Hc : p = 8080 \/ p = 8081) by lia.
    destruct Hc as [-> | ->]; reflexivity.
  - reflexivity.
  - discriminate.
Defined.

(** C9.  A failed bind is taken for "port in use" exactly when the
    error's [errno] is the number 98: then the loop logs the port as busy
    and goes on with the next candidate.  With any other [errno], or none,
    the run prints the error and ends through [sys.exit(1)], whatever the
    error means on the platform. *)
Theorem in_use_iff_errno_98 {rt : Runtime} (w : World) (p : Z)
    (rest : list Z) (cwd : string) (e : OSError) :
  w_bind w p = BindFails e ->
  (res_trace (scan w (p :: rest) cwd) =
     EvBind p :: EvPrint (busy_line p) :: res_trace (scan w rest cwd)
   <-> errno e = Some 98)
  /\ (errno e = Some 98 ->
      res_outcome (scan w (p :: rest) cwd) = res_outcome (scan w rest cwd))
  /\ (errno e <> Some 98 ->
      res_trace (scan w (p :: rest) cwd) =
        [EvBind p; EvPrint (error_line p e)]
      /\ res_outcome (scan w (p :: rest) cwd) = SysExit 1
      /\ exit_status (res_outcome (scan w (p :: rest) cwd)) = Some 1).
Proof.
  intros Hb. split; [split|split].
  - intros Htr.
    destruct (errno_is_98 e) eqn:E98; [apply errno_is_98_spec, E98|].
    assert (E : errno e <> Some 98).
    { intros X. apply errno_is_98_spec in X. congruence. }
    rewrite (scan_fatal w _ _ _ e Hb E) in Htr. cbn [res_trace] in Htr.
    exfalso. injection Htr as Hline _. unfold error_line, busy_line in Hline.
    cbn in Hline. discriminate.
  - intros E. rewrite scan_in_use by (exists e; auto). reflexivity.
  - intros E. rewrite scan_in_use by (exists e; auto). reflexivity.
  - intros E. rewrite (scan_fatal w _ _ _ e Hb E). repeat split.
Qed.

Lemma in_use_iff_errno_98_witness :
  let w := Demo.world [8080] [] Demo.EADDRINUSE_darwin [] Forever in
  res_trace (scan (rt := Demo.runtime) w (range 8080 8090) "/home/user") =
    [EvBind 8080;
     EvPrint
       "Error starting server on port 8080: [Errno 48] Address already in use"]
  /\ res_outcome (scan (rt := Demo.runtime) w (range 8080 8090) "/home/user")
     = SysExit 1
  /\ exit_status
       (res_outcome (scan (rt := Demo.runtime) w (range 8080 8090)
                       "/home/user")) = Some 1.
Proof.
  apply (in_use_iff_errno_98 (rt := Demo.runtime)
           (Demo.world [8080] [] Demo.EADDRINUSE_darwin [] Forever)
           8080 (range 8081 8090) "/home/user" Demo.EADDRINUSE_darwin).
  - reflexivity.
  - discriminate.
Defined.

(** ** The handler's root *)



(** ** The working directory *)

Section Chdir.
Context {rt : Runtime}.
Variable w : World.

Lemma passes_not_chdir e : passes w e = true -> is_chdir e = false.
Proof. destruct e; try reflexivity. discriminate. Qed.


Lemma served_passes cwd reqs :
  Forall (fun e => passes w e = true)
    (flat_map (connection_events w cwd) reqs).
Proof.
  induction reqs as [|r reqs IH]; cbn [flat_map]; [constructor|].
  apply Forall_app. split; [|exact IH].
  unfold connection_events. apply Forall_app. split.
  - apply Forall_forall. intros e He. apply in_map_iff in He.
    destruct He as (l & <- & _). reflexivity.
  - repeat constructor.
Qed.

Lemma cwd_after_app c l1 l2 :
  cwd_after w c (l1 ++ l2) = cwd_after w (cwd_after w c l1) l2.
Proof.
  revert c. induction l1 as [|e l1 IH]; intros c; [reflexivity|].
  destruct e; cbn [app cwd_after]; apply IH.
Qed.

Lemma cwd_after_no_chdir c l : no_chdir l -> cwd_after w c l = c.
Proof.
  induction 1 as [|e l He _ IH]; [reflexivity|].
  destruct e; cbn [cwd_after]; try exact IH. discriminate He.
Qed.

Lemma cwd_after_startup c p :
  cwd_after w c (startup w p c)
  = match w_chdir w (TestServerHandler.script_dir c (w_file w)) with
    | None => TestServerHandler.script_dir c (w_file w)
    | Some _ => c
    end.
Proof. reflexivity. Qed.


End Chdir.

Section ChdirGuard.
Context {rt : Runtime}.
Variable w : World.




End ChdirGuard.



(** ** The interrupt *)

(** C6, as stated, fails: in a run where port 8080 binds and the serve
    loop is interrupted, the process does not end with status 0.  Nothing
    in [main] catches [KeyboardInterrupt]. *)
Lemma interrupt_does_not_exit_zero :
  ~ (forall w : World,
        w_bind w PORT = Bound ->
        w_chdir w (TestServerHandler.script_dir (rt := Demo.runtime)
                     (w_cwd w) (w_file w)) = None ->
        w_serve_end w PORT = Interrupted ->
        exit_status (res_outcome (main (rt := Demo.runtime) w)) = Some 0).
Proof.
  intros H.
  specialize (H (Demo.world [] [] Demo.EADDRINUSE [] Interrupted)
                eq_refl eq_refl eq_refl).
  vm_compute in H. discriminate H.
Qed.

(** C6, amended.  An interrupt that arrives while the serve loop runs on
    the bound port [P] ends the loop; the [with] statement closes the
    server, no further port is tried, and the [KeyboardInterrupt] leaves
    [main] uncaught: the process ends with the interpreter's status for
    that, which is not 0. *)
Theorem interrupt_unwinds_uncaught {rt : Runtime} (w : World) (P : Z) :
  w_bind w P = Bound ->
  w_chdir w (TestServerHandler.script_dir (w_cwd w) (w_file w)) = None ->
  w_serve_end w P = Interrupted ->
  res_outcome (main_from w P) = KeyboardInterruptEscapes
  /\ res_trace (main_from w P) =
       (startup w P (w_cwd w)
        ++ EvServe P
        :: flat_map (connection_events w
                       (TestServerHandler.script_dir (w_cwd w) (w_file w)))
             (w_connections w P)
        ++ [EvClose P])%list
  /\ exit_status (res_outcome (main_from w P)) = Some 130
  /\ exit_status (res_outcome (main_from w P)) <> Some 0.
Proof.
  intros Hb Hc He. unfold main_from. rewrite (range_cons P) by lia.
  cbn [scan]. unfold try_body. rewrite Hb, Hc. unfold serve_forever.
  rewrite He. cbn [res_outcome res_trace exit_status].
  repeat split. discriminate.
Qed.

Lemma interrupt_unwinds_uncaught_witness :
  let w := Demo.world [] [] Demo.EADDRINUSE
             [Demo.get "/test-elements.html" (Some (1, 1)) 5] Interrupted in
  res_outcome (main (rt := Demo.runtime) w) = KeyboardInterruptEscapes
  /\ res_trace (main (rt := Demo.runtime) w) =
       (startup (rt := Demo.runtime) w 8080 "/home/user"
        ++ EvServe 8080
        :: flat_map (connection_events (rt := Demo.runtime) w "/srv/app")
             (w_connections w 8080)
        ++ [EvClose 8080])%list
  /\ exit_status (res_outcome (main (rt := Demo.runtime) w)) = Some 130
  /\ exit_status (res_outcome (main (rt := Demo.runtime) w)) <> Some 0.
Proof.
  apply (interrupt_unwinds_uncaught (rt := Demo.runtime)
           (Demo.world [] [] Demo.EADDRINUSE
              [Demo.get "/test-elements.html" (Some (1, 1)) 5] Interrupted)
           8080); reflexivity.
Defined.

(** ** The handler: normal forms of its steps *)

Section NormalForms.
Context {rt : Runtime}.
Variables (d rl : string) (c : option string) (p ver : string)
          (hs : list (string * string)) (clk : nat -> Z)
          (esc : option exn).

Local Abbreviation mk hb wf cc t so :=
  (mkHandler d rl c p ver hs hb wf cc clk t so esc).

Lemma send_response_only_mk code msg hb wf cc t so :
  Base.send_response_only code msg (mk hb wf cc t so) =
  mk (hb ++ when (live ver)
              [Status Base.protocol_version code (Base.phrase code msg)])
     wf cc t so.
Proof.
  unfold Base.send_response_only, Base.has_headers, when.
  cbn [request_version]. destruct (live ver); [reflexivity|].
  rewrite app_nil_r. reflexivity.
Qed.

Lemma send_header_mk k v hb wf cc t so :
  String.eqb (Py.lower k) "connection" = false ->
  Base.send_header k v (mk hb wf cc t so) =
  mk (hb ++ when (live ver) [Field k v]) wf cc t so.
Proof.
  intros Hk. unfold Base.send_header, Base.has_headers, when.
  rewrite Hk. cbn [request_version]. destruct (live ver); [reflexivity|].
  rewrite app_nil_r. reflexivity.
Qed.

Lemma send_header_close_mk hb wf cc t so :
  Base.send_header "Connection" "close" (mk hb wf cc t so) =
  mk (hb ++ when (live ver) [Field "Connection" "close"]) wf true t so.
Proof.
  unfold Base.send_header, Base.has_headers, when.
  cbn [request_version]. destruct (live ver); cbn; [reflexivity|].
  rewrite app_nil_r. reflexivity.
Qed.

Lemma log_message_mk fmt args hb wf cc t so :
  TestServerHandler.log_message fmt args (mk hb wf cc t so) =
  mk hb wf cc (S t) (so ++ [TestServerHandler.log_line (clk t) fmt args]).
Proof. reflexivity. Qed.

Lemma end_headers_mk hb wf cc t so :
  TestServerHandler.end_headers (mk hb wf cc t so) =
  mk (when (negb (live ver)) hb)
     (wf ++ when (live ver) [Head (hb ++ cors_fields ++ [EndOfHeaders])])
     cc t so.
Proof.
  unfold TestServerHandler.end_headers.
  rewrite !send_header_mk by reflexivity.
  unfold Base.end_headers, Base.has_headers, Base.flush_headers, when.
  cbn [request_version]. destruct (live ver); cbn.
  - rewrite <- !app_assoc. reflexivity.
  - rewrite !app_nil_r. reflexivity.
Qed.

Lemma send_response_mk code msg hb wf cc t so :
  Base.send_response TestServerHandler.cls code msg (mk hb wf cc t so) =
  mk (hb ++ when (live ver) (opening (clk (S t)) code (Base.phrase code msg)))
     wf cc (S (S t)) (so ++ [request_log (clk t) rl code]).
Proof.
  unfold Base.send_response, Base.log_request, TestServerHandler.cls.
  cbn [k_log_message requestline].
  rewrite log_message_mk, send_response_only_mk.
  rewrite send_header_mk by reflexivity.
  unfold tick, time_time.
  cbn [directory requestline command path request_version headers
         headers_buffer wfile close_connection clock reads stdout escaped].
  rewrite send_header_mk by reflexivity.
  unfold when, opening. destruct (live ver); cbn [app];
    rewrite <- ?app_assoc, ?app_nil_r; reflexivity.
Qed.

Lemma send_error_mk code m hb wf cc t so :
  200 <= code -> code <> 204 -> code <> 205 -> code <> 304 ->
  Base.send_error TestServerHandler.cls code (Some m) (mk hb wf cc t so) =
  mk (when (negb (live ver)) hb)
     (wf ++ when (live ver)
            [Head (hb ++ opening (clk (S (S t))) code m
                   ++ error_fields code m
                   ++ cors_fields ++ [EndOfHeaders])]
         ++ when (Base.wants_body c
                  && negb (String.eqb (Base.error_body code m) ""))
              [Body (Base.error_body code m)])
     true (S (S (S t)))
     (so ++ [error_log (clk t) code m; request_log (clk (S t)) rl code]).
Proof.
  intros H1 H2 H3 H4. unfold Base.send_error.
  assert (Hallowed : (200 <=? code)
                     && negb ((code =? 204) || (code =? 205) || (code =? 304))
                     = true).
  { apply andb_true_intro. split; [lia|].
    apply negb_true_iff. apply orb_false_intro; [apply orb_false_intro|]; lia. }
  rewrite Hallowed.
  unfold Base.log_error, TestServerHandler.cls.
  cbn [k_log_message k_end_headers].
  rewrite log_message_mk, send_response_mk, send_header_close_mk.
  rewrite !send_header_mk by reflexivity.
  rewrite end_headers_mk. cbn [command wfile Base.phrase].
  rewrite andb_true_r.
  destruct (Base.wants_body c && negb (Base.error_body code m =? "")%string);
    unfold when, opening, error_fields, error_log; destruct (live ver);
    cbn [set_wfile negb app directory requestline command path
           request_version headers headers_buffer wfile close_connection
           clock reads stdout escaped];
    rewrite <- ?app_assoc; cbn [app]; rewrite ?app_nil_r; reflexivity.
Qed.

End NormalForms.

Create Rewrite HintDb handler_nf.
#[export] Hint Rewrite @send_response_mk @send_header_close_mk @end_headers_mk
  : handler_nf.
#[export] Hint Rewrite @send_header_mk using reflexivity : handler_nf.

Ltac handler_nf :=
  autorewrite with handler_nf;
  cbn [fst snd set_wfile set_headers_buffer set_close_connection set_stdout
         set_request_version set_command_path set_headers
         directory requestline command path request_version headers
         headers_buffer wfile close_connection clock reads stdout
         escaped].

Ltac by_liveness :=
  unfold answered, refused, when, error_fields;
  cbn [fst snd set_wfile directory requestline command path request_version
         headers headers_buffer wfile close_connection clock reads stdout
         escaped];
  match goal with
  | |- context [live ?v] => destruct (live v)
  end;
  cbn [negb app]; rewrite <- ?app_assoc; cbn [app]; rewrite ?app_nil_r;
  reflexivity.

Section FreshReplies.
Context {rt : Runtime}.
Variable fs : filesystem.
Variables (d rl : string) (c : option string) (p ver : string)
          (hs : list (string * string)) (cc : bool) (clk : nat -> Z)
          (t : nat) (so : list string) (esc : option exn).

Local Abbreviation h0 :=
  (mkHandler d rl c p ver hs [] [] cc clk t so esc).

Lemma send_error_fresh code m :
  200 <= code -> code <> 204 -> code <> 205 -> code <> 304 ->
  Base.send_error TestServerHandler.cls code (Some m) h0 = refused h0 code m.
Proof.
  intros. rewrite send_error_mk by assumption. by_liveness.
Qed.

Lemma send_file_fresh q :
  Simple.send_file TestServerHandler.cls fs q h0 =
  if Py.endswith "/" q then (refused h0 404 "File not found", None)
  else match open_rb fs q with
       | OpenFails _ => (refused h0 404 "File not found", None)
       | OpenRaises x => (raise x h0, None)
       | Opened f =>
           if Simple.not_modified hs f then (answered h0 304 [] [], None)
           else (answered h0 200
                   [Field "Content-type" (guess_type q);
                    Field "Content-Length" (Py.str_of_Z (f_size f));
                    Field "Last-Modified" (date_time_string (f_mtime f))]
                   [], Some f)
       end.
Proof.
  unfold Simple.send_file. cbn [k_end_headers TestServerHandler.cls].
  destruct (Py.endswith "/" q);
    [rewrite send_error_fresh by lia; reflexivity|].
  destruct (open_rb fs q) as [f|e|x];
    [|rewrite send_error_fresh by lia; reflexivity | reflexivity].
  cbn [headers].
  destruct (Simple.not_modified hs f); handler_nf; f_equal; by_liveness.
Qed.

Lemma list_directory_fresh q :
  Simple.list_directory TestServerHandler.cls fs q h0 =
  match fs_listing fs q p with
  | None => (refused h0 404 "No permission to list directory", None)
  | Some encoded =>
      (answered h0 200
         [Field "Content-type" ("text/html; charset=" ++ fs_encoding);
          Field "Content-Length"
            (Py.str_of_Z (Z.of_nat (String.length encoded)))] [],
       Some (mkFile encoded (Z.of_nat (String.length encoded)) 0))
  end.
Proof.
  unfold Simple.list_directory.
  cbn [k_end_headers TestServerHandler.cls path].
  destruct (fs_listing fs q p) as [encoded|];
    [|rewrite send_error_fresh by lia; reflexivity].
  handler_nf. f_equal. by_liveness.
Qed.

Lemma send_head_fresh :
  Simple.send_head TestServerHandler.cls fs h0 =
  if isdir fs (local_path d p) then
    if negb (Py.endswith "/" (urlsplit_path p)) then
      (answered h0 301
         [Field "Location" (redirect_url p); Field "Content-Length" "0"] [],
       None)
    else if isfile fs (Py.path_join (local_path d p) "index.html") then
      Simple.send_file TestServerHandler.cls fs
        (Py.path_join (local_path d p) "index.html") h0
    else if isfile fs (Py.path_join (local_path d p) "index.htm") then
      Simple.send_file TestServerHandler.cls fs
        (Py.path_join (local_path d p) "index.htm") h0
    else Simple.list_directory TestServerHandler.cls fs (local_path d p) h0
  else Simple.send_file TestServerHandler.cls fs (local_path d p) h0.
Proof.
  unfold Simple.send_head, Simple.translate_path.
  cbn [k_end_headers TestServerHandler.cls path directory]. cbv zeta.
  destruct (isdir fs _); [|reflexivity].
  destruct (negb _); [|reflexivity].
  handler_nf. f_equal. by_liveness.
Qed.

Lemma copyfile_answered f code fields :
  Simple.copyfile f (answered h0 code fields []) =
  answered h0 code fields [Body (f_content f)].
Proof.
  unfold Simple.copyfile, answered.
  cbn [set_wfile directory requestline command path request_version
         headers headers_buffer wfile close_connection clock reads stdout
         escaped].
  rewrite app_nil_r. reflexivity.
Qed.

End FreshReplies.

(** ** The handler: every request gets one of the two kinds of reply *)

Section HandleReply.
Context {rt : Runtime}.
Variable fs : filesystem.

Lemma send_error_reply h code m :
  fresh h -> 400 <= code ->
  Base.send_error TestServerHandler.cls code (Some m) h = refused h code m.
Proof.
  destruct h; intros [Hb Hw] Hc; cbn in Hb, Hw; subst.
  apply send_error_fresh; lia.
Qed.

Lemma send_file_reply h q :
  fresh h ->
  reply_of fs h (fst (Simple.send_file TestServerHandler.cls fs q h))
  /\ (forall f, snd (Simple.send_file TestServerHandler.cls fs q h) = Some f ->
      exists fields,
        fst (Simple.send_file TestServerHandler.cls fs q h)
        = answered h 200 fields []
        /\ filter is_cors fields = []).
Proof.
  destruct h; intros [Hb Hw]; cbn in Hb, Hw; subst.
  rewrite send_file_fresh.
  destruct (Py.endswith "/" q); cbn [fst snd].
  { split; [apply Reply_refused; lia | discriminate]. }
  destruct (open_rb fs q) as [f|e|x] eqn:E; cbn [fst snd].
  2:{ split; [apply Reply_refused; lia | discriminate]. }
  2:{ split; [apply (Reply_none _ _ _ q), E | discriminate]. }
  destruct (Simple.not_modified _ f); cbn [fst snd].
  - split; [|discriminate].
    apply Reply_answered; [cbn; tauto | reflexivity | reflexivity].
  - split.
    + apply Reply_answered; [cbn; tauto | reflexivity | reflexivity].
    + intros f' _. eexists. split; reflexivity.
Qed.

Lemma list_directory_reply h q :
  fresh h ->
  reply_of fs h (fst (Simple.list_directory TestServerHandler.cls fs q h))
  /\ (forall f,
         snd (Simple.list_directory TestServerHandler.cls fs q h) = Some f ->
         exists fields,
           fst (Simple.list_directory TestServerHandler.cls fs q h)
           = answered h 200 fields []
           /\ filter is_cors fields = []).
Proof.
  destruct h; intros [Hb Hw]; cbn in Hb, Hw; subst.
  rewrite list_directory_fresh.
  destruct (fs_listing fs q _) as [encoded|]; cbn [fst snd].
  - split.
    + apply Reply_answered; [cbn; tauto | reflexivity | reflexivity].
    + intros f' _. eexists. split; reflexivity.
  - split; [apply Reply_refused; lia | discriminate].
Qed.

Lemma send_head_reply h :
  fresh h ->
  reply_of fs h (fst (Simple.send_head TestServerHandler.cls fs h))
  /\ (forall f, snd (Simple.send_head TestServerHandler.cls fs h) = Some f ->
      exists fields,
        fst (Simple.send_head TestServerHandler.cls fs h)
        = answered h 200 fields []
        /\ filter is_cors fields = []).
Proof.
  intros Hf.
  assert (E := send_head_fresh fs (directory h) (requestline h) (command h)
                 (path h) (request_version h) (headers h)
                 (close_connection h) (clock h) (reads h) (stdout h)
                 (escaped h)).
  destruct h; destruct Hf as [Hb Hw]; cbn in Hb, Hw; subst.
  cbn [directory requestline command path request_version headers
         close_connection clock reads stdout escaped] in E.
  rewrite E. clear E.
  destruct (isdir fs _); [|apply send_file_reply; split; reflexivity].
  destruct (negb _).
  { cbn [fst snd]. split; [|discriminate].
    apply Reply_answered; [cbn; tauto | reflexivity | reflexivity]. }
  destruct (isfile fs _); [apply send_file_reply; split; reflexivity|].
  destruct (isfile fs _); [apply send_file_reply; split; reflexivity|].
  apply list_directory_reply; split; reflexivity.
Qed.

Lemma do_GET_reply h :
  fresh h -> reply_of fs h (Simple.do_GET TestServerHandler.cls fs h).
Proof.
  intros Hf. destruct (send_head_reply h Hf) as [Hr Hs].
  unfold Simple.do_GET.
  destruct (Simple.send_head TestServerHandler.cls fs h) as [h' [f|]];
    cbn [fst snd] in *; [|exact Hr].
  destruct (Hs f eq_refl) as (fields & -> & Hc).
  destruct h; destruct Hf as [Hb Hw]; cbn in Hb, Hw; subst.
  rewrite copyfile_answered.
  apply Reply_answered; [cbn; tauto | exact Hc | reflexivity].
Qed.

Lemma do_HEAD_reply h :
  fresh h -> reply_of fs h (Simple.do_HEAD TestServerHandler.cls fs h).
Proof. intros Hf. apply send_head_reply, Hf. Qed.

Variables (cwd file_ : string) (out : list string).

Lemma parse_request_accepted r :
  accepted r = true ->
  Simple.parse_request TestServerHandler.cls r
    (TestServerHandler.init cwd file_ (rq_clock r) out)
  = (received cwd file_ out r, true).
Proof.
  intros Ha. unfold received, settled_version. rewrite Ha.
  unfold accepted in Ha.
  unfold Simple.parse_request, TestServerHandler.init, Simple.init.
  assert (Hold : str_ge Base.protocol_version "HTTP/1.1" = false)
    by reflexivity.
  destruct (rq_version r) as [v|].
  - apply negb_true_iff in Ha. rewrite Ha, Hold, !andb_false_r.
    cbv [set_request_version set_headers set_command_path
           set_close_connection].
    cbn [andb directory requestline command path request_version headers
           headers_buffer wfile close_connection clock reads stdout
         escaped].
    destruct (String.eqb _ "close"); reflexivity.
  - rewrite Ha, Hold, !andb_false_r.
    cbv [set_request_version set_headers set_command_path
           set_close_connection].
    cbn [negb andb directory requestline command path request_version
           headers headers_buffer wfile close_connection clock reads stdout
         escaped].
    destruct (String.eqb _ "close"); reflexivity.
Qed.

Lemma parse_request_refused r :
  accepted r = false ->
  exists code m,
    400 <= code /\
    Simple.parse_request TestServerHandler.cls r
      (TestServerHandler.init cwd file_ (rq_clock r) out)
    = (refused (received cwd file_ out r) code m, false).
Proof.
  intros Ha. unfold received, settled_version. rewrite Ha.
  unfold accepted in Ha.
  unfold Simple.parse_request, TestServerHandler.init, Simple.init.
  assert (Hold : str_ge Base.protocol_version "HTTP/1.1" = false)
    by reflexivity.
  destruct (rq_version r) as [v|].
  - apply negb_false_iff in Ha. rewrite Ha, Hold, ?andb_false_r.
    exists 505. eexists. split; [lia|].
    rewrite send_error_reply by (try split; try reflexivity; lia).
    reflexivity.
  - rewrite Ha. cbn [negb].
    exists 400. eexists. split; [lia|].
    rewrite send_error_reply by (try split; try reflexivity; lia).
    reflexivity.
Qed.

(** Whatever the request, the handler's final state is that of one reply
    made from the state in which the request was received. *)
Lemma handle_reply r :
  reply_of fs (received cwd file_ out r)
    (TestServerHandler.handle fs cwd file_ out r).
Proof.
  unfold TestServerHandler.handle, Simple.handle_one_request.
  destruct (accepted r) eqn:Ha.
  - rewrite (parse_request_accepted r Ha).
    assert (Hf : fresh (received cwd file_ out r)) by (split; reflexivity).
    destruct (String.eqb (rq_command r) "GET"); [apply do_GET_reply, Hf|].
    destruct (String.eqb (rq_command r) "HEAD"); [apply do_HEAD_reply, Hf|].
    rewrite send_error_reply by (assumption || lia).
    apply Reply_refused. lia.
  - destruct (parse_request_refused r Ha) as (code & m & Hc & ->).
    apply Reply_refused. exact Hc.
Qed.

End HandleReply.

(** ** The cross-origin header fields *)

Lemma live_true (ver : string) : ver <> "HTTP/0.9" -> live ver = true.
Proof.
  intros H. unfold live. apply negb_true_iff, String.eqb_neq, H.
Qed.

Lemma live_false (ver : string) : ver = "HTTP/0.9" -> live ver = false.
Proof. intros ->. reflexivity. Qed.






(** ** The access log *)





Lemma stdout_of_app (a b : list event) :
  stdout_of (a ++ b) = (stdout_of a ++ stdout_of b)%list.
Proof. unfold stdout_of. apply flat_map_app. Qed.





(** ** The served directory *)





(** * The run as a whole *)

Lemma range_empty (a b : Z) : b <= a -> range a b = [].
Proof.
  intros H. unfold range. replace (Z.to_nat (b - a)) with 0%nat by lia.
  reflexivity.
Qed.

Lemma range_prefix (pre post : list Z) :
  forall a b, range a b = (pre ++ post)%list ->
              pre = range a (a + Z.of_nat (List.length pre)).
Proof.
  induction pre as [|x pre IH]; intros a b E.
  - cbn. rewrite Z.add_0_r, range_nil. reflexivity.
  - destruct (Z_lt_le_dec a b) as [Hlt | Hge].
    + rewrite (range_cons a b Hlt) in E. cbn [app] in E.
      injection E as <- E.
      rewrite (range_cons a) by (cbn [List.length]; lia).
      f_equal. rewrite (IH _ _ E) at 1. f_equal. cbn [List.length]. lia.
    + rewrite (range_empty a b Hge) in E. discriminate E.
Qed.

Lemma bind_attempts_app (a b : list event) :
  bind_attempts (a ++ b) = (bind_attempts a ++ bind_attempts b)%list.
Proof. apply flat_map_app. Qed.

Lemma In_bind_attempts (p : Z) (tr : list event) :
  In (EvBind p) tr <-> In p (bind_attempts tr).
Proof.
  unfold bind_attempts. rewrite in_flat_map. split.
  - intros H. exists (EvBind p). split; [exact H | left; reflexivity].
  - intros (e & He & Hin). destruct e; cbn in Hin; try contradiction.
    destruct Hin as [<- | []]. exact He.
Qed.

(** ** Attempts, one port at a time *)

Section Runs.
Context {rt : Runtime}.
Variable w : World.

Lemma connection_events_quiet cwd r :
  forallb quiet (connection_events w cwd r) = true.
Proof.
  unfold connection_events. rewrite forallb_app. cbn.
  rewrite andb_true_r. induction (stdout _) as [|l ls IH]; [reflexivity|].
  exact IH.
Qed.

Lemma connections_quiet cwd rs :
  forallb quiet (flat_map (connection_events w cwd) rs) = true.
Proof.
  induction rs as [|r rs IH]; [reflexivity|].
  cbn [flat_map]. rewrite forallb_app, connection_events_quiet, IH.
  reflexivity.
Qed.

Lemma bind_attempts_quiet tr :
  forallb quiet tr = true -> bind_attempts tr = [].
Proof.
  induction tr as [|e tr IH]; [reflexivity|]. cbn [forallb].
  intros H. apply andb_prop in H. destruct H as [He Ht].
  destruct e; try discriminate He; cbn; apply IH, Ht.
Qed.

Lemma listening_app open a b :
  listening w open (a ++ b) = listening w (listening w open a) b.
Proof. apply fold_left_app. Qed.

Lemma listening_quiet open tr :
  forallb quiet tr = true -> listening w open tr = open.
Proof.
  revert open. induction tr as [|e tr IH]; intros open; [reflexivity|].
  cbn [forallb]. intros H. apply andb_prop in H. destruct H as [He Ht].
  destruct e; try discriminate He; cbn; apply IH, Ht.
Qed.

Lemma peak_app open a b :
  peak w open (a ++ b)
  = Nat.max (peak w open a) (peak w (listening w open a) b).
Proof.
  revert open. induction a as [|e a IH]; intros open.
  - cbn [app peak listening fold_left].
    destruct b; cbn [peak].
    + symmetry. apply Nat.max_id.
    + rewrite Nat.max_assoc, Nat.max_id. reflexivity.
  - cbn [app peak]. rewrite IH. cbn [listening fold_left].
    apply Nat.max_assoc.
Qed.

Lemma peak_quiet open tr :
  forallb quiet tr = true -> peak w open tr = List.length open.
Proof.
  revert open. induction tr as [|e tr IH]; intros open; [reflexivity|].
  cbn [forallb]. intros H. apply andb_prop in H. destruct H as [He Ht].
  destruct e; try discriminate He; cbn [peak socket_step];
    rewrite (IH _ Ht); apply Nat.max_id.
Qed.

Lemma banner_quiet p : forallb quiet (banner p) = true.
Proof. reflexivity. Qed.

Lemma no_serve_in_connections cwd rs p :
  ~ In (EvServe p) (flat_map (connection_events w cwd) rs).
Proof.
  rewrite in_flat_map. intros (r & _ & Hin). unfold connection_events in Hin.
  apply in_app_or in Hin. destruct Hin as [Hin | [Hin | []]].
  - apply in_map_iff in Hin. destruct Hin as (l & Hl & _). discriminate Hl.
  - discriminate Hin.
Qed.

Lemma try_body_attempt p cwd :
  exists c evs cwd',
    try_body w p cwd = (c, evs, cwd') /\ attempt w p cwd c evs cwd'.
Proof.
  unfold try_body, serve_forever. fold (startup w p cwd).
  destruct (w_bind w p) as [|e] eqn:Hb.
  - destruct (w_chdir w _) as [e|] eqn:Hc.
    + do 3 eexists. split; [reflexivity|]. apply Attempt_stuck; assumption.
    + destruct (w_serve_end w p) as [|e| |] eqn:He;
        do 3 eexists;
        (split;
         [ reflexivity
         | match goal with
           | |- attempt _ _ _ ?c ?evs _ =>
               let H := fresh in
               pose proof (Attempt_served w p cwd c Hb Hc) as H;
               rewrite He in H; specialize (H eq_refl);
               cbn [app] in H; rewrite ?app_nil_r in H; exact H
           end ]).
  - do 3 eexists. split; [reflexivity|]. apply Attempt_unbound, Hb.
Qed.

Lemma scan_cons p rest cwd :
  exists c evs cwd',
    attempt w p cwd c evs cwd'
    /\ scan w (p :: rest) cwd =
       match c with
       | Normal => mkResult Returned evs cwd'
       | RaisedKeyboardInterrupt => mkResult KeyboardInterruptEscapes evs cwd'
       | Blocked => mkResult Serving evs cwd'
       | RaisedOSError e =>
           if errno_is_98 e then
             mkResult (res_outcome (scan w rest cwd'))
               (evs ++ EvPrint (busy_line p) :: res_trace (scan w rest cwd'))
               (res_cwd (scan w rest cwd'))
           else
             mkResult (SysExit 1) (evs ++ [EvPrint (error_line p e)]) cwd'
       end.
Proof.
  destruct (try_body_attempt p cwd) as (c & evs & cwd' & E & A).
  exists c, evs, cwd'. split; [exact A|].
  cbn [scan]. rewrite E. reflexivity.
Qed.

Lemma startup_binds p cwd : bind_attempts (startup w p cwd) = [p].
Proof. reflexivity. Qed.

Lemma attempt_binds p cwd c evs cwd' :
  attempt w p cwd c evs cwd' -> bind_attempts evs = [p].
Proof.
  intros [e Hb | e Hb Hc | c0 Hb Hc Hend]; [reflexivity| |].
  - rewrite bind_attempts_app, startup_binds. reflexivity.
  - rewrite bind_attempts_app, startup_binds.
    change (EvServe p :: ?l) with ([EvServe p] ++ l)%list.
    rewrite !bind_attempts_app.
    rewrite (bind_attempts_quiet _ (connections_quiet _ _)).
    destruct c0; reflexivity.
Qed.

Lemma scan_attempts ports :
  forall cwd, exists pre post,
    ports = (pre ++ post)%list
    /\ bind_attempts (res_trace (scan w ports cwd)) = pre
    /\ (ports <> [] -> pre <> []).
Proof.
  induction ports as [|p rest IH]; intros cwd.
  - exists [], []. repeat split. intros H. exact H.
  - destruct (scan_cons p rest cwd) as (c & evs & cwd' & A & ->).
    pose proof (attempt_binds _ _ _ _ _ A) as Hb.
    assert (Hone : exists pre post,
               p :: rest = (pre ++ post)%list /\ [p] = pre
               /\ (p :: rest <> [] -> pre <> [])).
    { exists [p], rest. repeat split. intros _. discriminate. }
    destruct c as [|e| |]; cbn [res_trace]; rewrite ?Hb; try exact Hone.
    destruct (errno_is_98 e); cbn [res_trace]; rewrite bind_attempts_app, Hb.
    + destruct (IH cwd') as (pre & post & -> & Hp & _).
      exists (p :: pre), post.
      change (bind_attempts (EvPrint ?l :: ?tr)) with (bind_attempts tr).
      rewrite Hp. repeat split. intros _. discriminate.
    + cbn. exact Hone.
Qed.

Lemma attempt_sockets p cwd c evs cwd' :
  attempt w p cwd c evs cwd' ->
  listening w [] evs = match c with Blocked => [p] | _ => [] end
  /\ (peak w [] evs <= 1)%nat.
Proof.
  assert (Hrm : remove Z.eq_dec p [p] = []).
  { cbn [remove]. destruct (Z.eq_dec p p); [reflexivity | contradiction]. }
  assert (Hq : forall tl,
             forallb quiet
               (banner p
                ++ EvChdir (TestServerHandler.script_dir cwd (w_file w))
                :: tl) = forallb quiet tl).
  { intros tl. reflexivity. }
  intros [e Hb | e Hb Hc | c0 Hb Hc Hend].
  - cbn [listening fold_left socket_step peak]. rewrite Hb.
    split; [reflexivity | cbn; lia].
  - unfold startup. cbn [app listening fold_left peak socket_step].
    rewrite Hb. rewrite <- app_assoc. cbn [app].
    change (fold_left (socket_step w) ?l ?o) with (listening w o l).
    rewrite listening_app, peak_app.
    rewrite (listening_quiet _ _ (banner_quiet p)),
      (peak_quiet _ _ (banner_quiet p)).
    cbn [listening fold_left socket_step peak]. rewrite Hrm.
    split; [reflexivity | cbn; lia].
  - unfold startup. cbn [app listening fold_left peak socket_step].
    rewrite Hb. rewrite <- app_assoc. cbn [app].
    change (fold_left (socket_step w) ?l ?o) with (listening w o l).
    rewrite listening_app, peak_app.
    rewrite (listening_quiet _ _ (banner_quiet p)),
      (peak_quiet _ _ (banner_quiet p)).
    cbn [listening fold_left socket_step peak].
    change (fold_left (socket_step w) ?l ?o) with (listening w o l).
    rewrite listening_app, peak_app.
    rewrite (listening_quiet _ _ (connections_quiet _ _)),
      (peak_quiet _ _ (connections_quiet _ _)).
    destruct c0; cbn [listening fold_left socket_step peak];
      rewrite ?Hrm; (split; [reflexivity | cbn; lia]).
Qed.

Lemma scan_sockets ports :
  forall cwd,
    (peak w [] (res_trace (scan w ports cwd)) <= 1)%nat
    /\ (res_outcome (scan w ports cwd) <> Serving ->
        listening w [] (res_trace (scan w ports cwd)) = [])
    /\ (res_outcome (scan w ports cwd) = Serving ->
        exists p,
          In p ports /\ w_bind w p = Bound /\ w_serve_end w p = Forever
          /\ listening w [] (res_trace (scan w ports cwd)) = [p]).
Proof.
  induction ports as [|p rest IH]; intros cwd.
  - cbn. repeat split; [lia | discriminate].
  - destruct (scan_cons p rest cwd) as (c & evs & cwd' & A & ->).
    destruct (attempt_sockets _ _ _ _ _ A) as [Hl Hp].
    destruct c as [|e| |]; cbn [res_trace res_outcome].
    + repeat split; [exact Hp | intros _; exact Hl | discriminate].
    + destruct (errno_is_98 e); cbn [res_trace res_outcome].
      * destruct (IH cwd') as (IHp & IHl & IHs).
        rewrite peak_app, listening_app, Hl.
        cbn [peak listening fold_left socket_step].
        change (fold_left (socket_step w) ?l ?o) with (listening w o l).
        split; [|split].
        -- cbn [List.length]. apply Nat.max_lub; [exact Hp|].
           apply Nat.max_lub; [lia | exact IHp].
        -- exact IHl.
        -- intros Hs. destruct (IHs Hs) as (q & Hq & Hrest).
           exists q. split; [right; exact Hq | exact Hrest].
      * rewrite peak_app, listening_app, Hl.
        cbn [peak listening fold_left socket_step List.length].
        repeat split; [|discriminate].
        apply Nat.max_lub; [exact Hp | cbn; lia].
    + repeat split; [exact Hp | intros _; exact Hl | discriminate].
    + split; [exact Hp|]. split; [intros H; contradiction|].
      intros _. exists p. split; [left; reflexivity|].
      inversion A as [ | | c0 Hb Hc Hend]; subst.
      destruct (w_serve_end w p); try discriminate Hend.
      repeat split; assumption.
Qed.

Lemma scan_sys_exit ports :
  forall cwd code,
    res_outcome (scan w ports cwd) = SysExit code ->
    code = 1
    /\ exists pre line,
        res_trace (scan w ports cwd) = (pre ++ [EvPrint line])%list
        /\ (line = "Could not find an available port"
            \/ exists p e,
                In p ports /\ errno e <> Some 98
                /\ line = error_line p e).
Proof.
  induction ports as [|p rest IH]; intros cwd code.
  - cbn. intros E. injection E as <-. split; [reflexivity|].
    exists [], "Could not find an available port".
    split; [reflexivity | left; reflexivity].
  - destruct (scan_cons p rest cwd) as (c & evs & cwd' & A & ->).
    destruct c as [|e| |]; cbn [res_outcome res_trace]; try discriminate.
    destruct (errno_is_98 e) eqn:E98; cbn [res_outcome res_trace].
    + intros E. destruct (IH cwd' code E) as (-> & pre & line & -> & Hl).
      split; [reflexivity|].
      exists (evs ++ EvPrint (busy_line p) :: pre)%list, line.
      split; [rewrite <- app_assoc; reflexivity|].
      destruct Hl as [Hl | (q & e' & Hq & He' & Hl)]; [left; exact Hl|].
      right. exists q, e'. split; [right; exact Hq|]. split; assumption.
    + intros E. injection E as <-. split; [reflexivity|].
      exists evs, (error_line p e). split; [reflexivity|].
      right. exists p, e. split; [left; reflexivity|].
      split; [|reflexivity].
      intros H. apply errno_is_98_spec in H. congruence.
Qed.

Lemma attempt_cwd p c cpl evs c' :
  attempt w p c cpl evs c' -> cwd_after w c evs = c'.
Proof.
  intros [e Hb | e Hb Hc | c0 Hb Hc Hend].
  - reflexivity.
  - rewrite cwd_after_app, cwd_after_startup, Hc. reflexivity.
  - rewrite cwd_after_app, cwd_after_startup, Hc.
    cbn [cwd_after]. rewrite cwd_after_app.
    assert (Hq : forall d rs,
               cwd_after w d (flat_map (connection_events w d) rs) = d).
    { intros d rs. apply cwd_after_no_chdir.
      eapply Forall_impl; [|apply served_passes].
      intros a Ha. apply (passes_not_chdir w), Ha. }
    rewrite Hq. destruct c0; reflexivity.
Qed.

(** A run that ends in [sys.exit] has just printed why: that no port
    was found, or the error of the attempt that failed. *)
Lemma scan_exit_announced ports :
  forall c,
    res_outcome (scan w ports c) = SysExit 1 ->
    (exists pre,
        res_trace (scan w ports c)
        = (pre ++ [EvPrint "Could not find an available port"])%list)
    \/ (exists p e evs c' pre,
           In p ports
           /\ attempt w p (cwd_after w c pre) (RaisedOSError e) evs c'
           /\ errno e <> Some 98
           /\ res_trace (scan w ports c)
              = (pre ++ evs ++ [EvPrint (error_line p e)])%list).
Proof.
  induction ports as [|p rest IH]; intros c.
  - intros _. left. exists []. reflexivity.
  - destruct (scan_cons p rest c) as (c0 & evs & cwd' & A & ->).
    destruct c0 as [|e| |]; cbn [res_outcome res_trace]; try discriminate.
    destruct (errno_is_98 e) eqn:E98; cbn [res_outcome res_trace].
    + intros E. destruct (IH cwd' E)
        as [(pre & ->) | (q & e' & evs' & c' & pre & Hq & A' & He' & ->)].
      * left. exists (evs ++ EvPrint (busy_line p) :: pre)%list.
        rewrite <- app_assoc. reflexivity.
      * right.
        exists q, e', evs', c',
          (evs ++ EvPrint (busy_line p) :: pre)%list.
        split; [right; exact Hq|]. split; [|split; [exact He'|]].
        -- rewrite cwd_after_app, (attempt_cwd _ _ _ _ _ A).
           exact A'.
        -- rewrite <- app_assoc. reflexivity.
    + intros _. right. exists p, e, evs, cwd', [].
      split; [left; reflexivity|]. split; [exact A|].
      split; [|reflexivity].
      intros H. apply errno_is_98_spec in H. congruence.
Qed.

Lemma scan_returned ports :
  forall cwd,
    res_outcome (scan w ports cwd) = Returned ->
    exists p pre,
      In p ports /\ w_bind w p = Bound /\ w_serve_end w p = ShutDown
      /\ res_trace (scan w ports cwd) = (pre ++ [EvClose p])%list
      /\ In (EvServe p) pre.
Proof.
  induction ports as [|p rest IH]; intros cwd.
  - cbn. discriminate.
  - destruct (scan_cons p rest cwd) as (c & evs & cwd' & A & ->).
    destruct c as [|e| |]; cbn [res_outcome res_trace]; try discriminate.
    + intros _. inversion A as [ | | c0 Hb Hc Hend]; subst.
      destruct (w_serve_end w p) eqn:He; try discriminate Hend.
      exists p. eexists. split; [left; reflexivity|].
      split; [exact Hb|]. split; [exact He|].
      split.
      * rewrite app_comm_cons, app_assoc. reflexivity.
      * apply in_or_app. right. left. reflexivity.
    + destruct (errno_is_98 e); cbn [res_outcome res_trace];
        [|discriminate].
      intros E. destruct (IH cwd' E) as (q & pre & Hq & Hb & He & -> & Hin).
      exists q, (evs ++ EvPrint (busy_line p) :: pre)%list.
      split; [right; exact Hq|]. split; [exact Hb|]. split; [exact He|].
      split; [rewrite <- app_assoc; reflexivity|].
      apply in_or_app. right. right. exact Hin.
Qed.

Lemma attempt_served_port p cwd c evs cwd' q :
  attempt w p cwd c evs cwd' -> In (EvServe q) evs ->
  q = p /\ w_bind w p = Bound
  /\ w_chdir w (TestServerHandler.script_dir cwd (w_file w)) = None
  /\ incl (EvBind p :: banner p) evs.
Proof.
  assert (Hst : forall c0, ~ In (EvServe q) (startup w p c0)).
  { intros c0 Hin. unfold startup, banner in Hin. cbn in Hin.
    repeat (destruct Hin as [Hin | Hin]; [discriminate Hin|]).
    exact Hin. }
  assert (Hincl : forall tl, incl (EvBind p :: banner p)
                               (startup w p cwd ++ tl)).
  { intros tl e He. apply in_or_app. left. unfold startup.
    rewrite app_comm_cons. apply in_or_app. left. exact He. }
  intros [e Hb | e Hb Hc | c0 Hb Hc Hend] Hin.
  - destruct Hin as [Hin | []]. discriminate Hin.
  - apply in_app_or in Hin. destruct Hin as [Hin | [Hin | []]].
    + destruct (Hst _ Hin).
    + discriminate Hin.
  - apply in_app_or in Hin. destruct Hin as [Hin | [Hin | Hin]].
    + destruct (Hst _ Hin).
    + injection Hin as ->. repeat split; try assumption. apply Hincl.
    + apply in_app_or in Hin. destruct Hin as [Hin | Hin].
      * destruct (no_serve_in_connections _ _ _ Hin).
      * destruct c0; cbn in Hin; destruct Hin as [Hin | []] || destruct Hin;
          discriminate Hin.
Qed.

Lemma scan_served ports :
  forall cwd q,
    In (EvServe q) (res_trace (scan w ports cwd)) ->
    In q ports /\ w_bind w q = Bound
    /\ incl (EvBind q :: banner q) (res_trace (scan w ports cwd)).
Proof.
  induction ports as [|p rest IH]; intros cwd q.
  - cbn. intros [H | []]. discriminate H.
  - destruct (scan_cons p rest cwd) as (c & evs & cwd' & A & ->).
    assert (Hhere : In (EvServe q) evs ->
                    forall tl,
                      In q (p :: rest) /\ w_bind w q = Bound
                      /\ incl (EvBind q :: banner q) (evs ++ tl)).
    { intros Hin tl.
      destruct (attempt_served_port _ _ _ _ _ _ A Hin) as (-> & Hb & _ & Hi).
      split; [left; reflexivity|]. split; [exact Hb|].
      intros e He. apply in_or_app. left. apply Hi, He. }
    destruct c as [|e| |]; cbn [res_trace];
      try (intros Hin; rewrite <- (app_nil_r evs); apply Hhere;
           rewrite <- (app_nil_r evs) in Hin; rewrite app_nil_r in Hin;
           exact Hin).
    destruct (errno_is_98 e); cbn [res_trace]; intros Hin;
      apply in_app_or in Hin; destruct Hin as [Hin | Hin];
      try (apply Hhere; exact Hin).
    + destruct Hin as [Hin | Hin]; [discriminate Hin|].
      destruct (IH cwd' q Hin) as (Hq & Hb & Hi).
      split; [right; exact Hq|]. split; [exact Hb|].
      intros e' He'. apply in_or_app. right. right. apply Hi, He'.
    + destruct Hin as [Hin | []]. discriminate Hin.
Qed.

End Runs.

Lemma range_length (a b : Z) : List.length (range a b) = Z.to_nat (b - a).
Proof. unfold range. rewrite length_map, length_seq. reflexivity. Qed.

Lemma scan_starts_with_bind {rt : Runtime} (w : World) p rest cwd :
  exists tl, res_trace (scan w (p :: rest) cwd) = EvBind p :: tl.
Proof.
  destruct (scan_cons w p rest cwd) as (c & evs & cwd' & A & ->).
  assert (E : exists tl, evs = EvBind p :: tl).
  { destruct A; eexists; reflexivity. }
  destruct E as (tl & ->).
  destruct c as [|e| |]; cbn [res_trace]; try (eexists; reflexivity).
  destruct (errno_is_98 e); cbn [res_trace app]; eexists; reflexivity.
Qed.

(** ** What every run does and never does *)

(** The ports a run tries to bind are [P], [P+1], ... up to some
    [P+k-1], each once and in this order, with [k] between 1 and 10:
    no port outside the ten candidates is tried, none is tried twice,
    and none is skipped. *)
Theorem bind_attempts_are_a_prefix_of_the_candidates {rt : Runtime}
    (w : World) (P : Z) :
  exists k,
    1 <= k <= 10
    /\ bind_attempts (res_trace (main_from w P)) = range P (P + k).
Proof.
  unfold main_from.
  destruct (scan_attempts w (range P (P + 10)) (w_cwd w))
    as (pre & post & E & -> & Hne).
  exists (Z.of_nat (List.length pre)).
  split; [|exact (range_prefix pre post _ _ E)].
  assert (Hlen : List.length (range P (P + 10)) = 10%nat).
  { rewrite range_length. replace (P + 10 - P) with 10 by lia. reflexivity. }
  rewrite E, length_app in Hlen.
  assert (pre <> []).
  { apply Hne. rewrite (range_cons P) by lia. discriminate. }
  destruct pre; [contradiction|]. cbn [List.length] in *. lia.
Qed.

(** When all ten candidates are in use, the last two lines printed are
    "Port P+9 is busy, trying P+10" and "Could not find an available
    port": the port that the last busy line says is tried next, [P+10],
    is never tried. *)
Theorem last_busy_line_names_a_port_that_is_never_tried {rt : Runtime}
    (w : World) (P : Z) :
  (forall p, P <= p < P + 10 -> in_use w p) ->
  (exists pre,
      stdout_of (res_trace (main_from w P))
      = (pre ++ [ ("Port " ++ Py.str_of_Z (P + 9) ++ " is busy, trying "
                   ++ Py.str_of_Z (P + 10))%string;
                  "Could not find an available port" ])%list)
  /\ ~ In (EvBind (P + 10)) (res_trace (main_from w P)).
Proof.
  intros Hbusy.
  assert (Hall : Forall (in_use w) (range P (P + 10))).
  { apply Forall_forall. intros p Hp. apply Hbusy, range_In, Hp. }
  split.
  - unfold main_from.
    rewrite (range_app P (P + 9) (P + 10)) in * by lia.
    apply Forall_app in Hall. destruct Hall as [H9 Hlast].
    rewrite (scan_busy_prefix w _ _ _ H9). cbn [res_trace].
    rewrite (range_cons (P + 9)) in * by lia.
    replace (P + 9 + 1) with (P + 10) in * by lia.
    rewrite range_nil in *.
    rewrite (scan_in_use w _ _ _ (Forall_inv Hlast)). cbn [res_trace scan].
    rewrite stdout_of_app. eexists. unfold busy_line.
    replace (P + 9 + 1) with (P + 10) by lia. reflexivity.
  - intros Hin. apply In_bind_attempts in Hin.
    unfold main_from in Hin.
    destruct (scan_attempts w (range P (P + 10)) (w_cwd w))
      as (pre & post & E & Hpre & _).
    rewrite Hpre in Hin.
    assert (Hr : In (P + 10) (range P (P + 10))).
    { rewrite E. apply in_or_app. left. exact Hin. }
    apply range_In in Hr. lia.
Qed.

Lemma last_busy_line_names_a_port_that_is_never_tried_witness :
  let w := Demo.world (range 8080 8090) [] Demo.EADDRINUSE [] Forever in
  (exists pre,
      stdout_of (res_trace (main (rt := Demo.runtime) w))
      = (pre ++ [ "Port 8089 is busy, trying 8090";
                  "Could not find an available port" ])%list)
  /\ ~ In (EvBind 8090) (res_trace (main (rt := Demo.runtime) w)).
Proof.
  apply (last_busy_line_names_a_port_that_is_never_tried
           (rt := Demo.runtime)
           (Demo.world (range 8080 8090) [] Demo.EADDRINUSE [] Forever) 8080).
  intros p Hp. exists Demo.EADDRINUSE. split; [|reflexivity].
  assert (Hc : p = 8080 \/ p = 8081 \/ p = 8082 \/ p = 8083 \/ p = 8084
               \/ p = 8085 \/ p = 8086 \/ p = 8087 \/ p = 8088 \/ p = 8089)
    by lia.
  repeat (destruct Hc as [-> | Hc]; [reflexivity|]). subst p. reflexivity.
Defined.

(** [main] calls [sys.exit] with no status but 1, and never silently:
    the last event of such a run is a printed line.  It is "Could not
    find an available port", or it is the "Error starting server on
    port p: ..." line of a candidate port [p], printed right after the
    attempt on [p], and the error it renders is the [OSError] of that
    attempt, with an [errno] other than 98: the error of the bind, or,
    the bind having succeeded, that of [os.chdir] or that of the serve
    loop, the server being closed first. *)
Theorem sys_exit_has_status_1_and_is_announced {rt : Runtime}
    (w : World) (P : Z) :
  (exists code, res_outcome (main_from w P) = SysExit code) ->
  res_outcome (main_from w P) = SysExit 1
  /\ ((exists pre,
          res_trace (main_from w P)
          = (pre ++ [EvPrint "Could not find an available port"])%list)
      \/ exists p e pre evs,
          P <= p < P + 10
          /\ errno e <> Some 98
          /\ res_trace (main_from w P)
             = (pre ++ evs
                ++ [EvPrint ("Error starting server on port "
                             ++ Py.str_of_Z p ++ ": " ++ os_str e)%string])%list
          /\ let cwd := cwd_after w (w_cwd w) pre in
             let dir := TestServerHandler.script_dir cwd (w_file w) in
             (w_bind w p = BindFails e /\ evs = [EvBind p])
             \/ (w_bind w p = Bound /\ w_chdir w dir = Some e
                 /\ evs = (startup w p cwd ++ [EvClose p])%list)
             \/ (w_bind w p = Bound /\ w_chdir w dir = None
                 /\ w_serve_end w p = ServeFails e
                 /\ evs = (startup w p cwd
                           ++ EvServe p
                           :: flat_map (connection_events w dir)
                                (w_connections w p)
                           ++ [EvClose p])%list)).
Proof.
  intros (code & E). unfold main_from in *.
  destruct (scan_sys_exit w _ _ _ E) as (-> & _).
  split; [exact E|].
  destruct (scan_exit_announced w _ _ E)
    as [Hnone | (p & e & evs & c' & pre & Hp & A & He & Ht)];
    [left; exact Hnone|].
  right. exists p, e, pre, evs. apply range_In in Hp.
  split; [lia|]. split; [exact He|]. split; [exact Ht|]. cbv zeta.
  inversion A as [e0 Hb | e0 Hb Hc | c0 Hb Hc Hend]; subst.
  - left. split; [exact Hb | reflexivity].
  - right. left. repeat split; assumption.
  - right. right.
    destruct (w_serve_end w p) as [|e0| |] eqn:Hs; try discriminate Hend.
    injection Hend as ->. repeat split; assumption.
Qed.

Lemma sys_exit_has_status_1_and_is_announced_witness :
  let w := Demo.world [8080] [8081] Demo.EADDRINUSE [] Forever in
  res_outcome (main (rt := Demo.runtime) w) = SysExit 1
  /\ ((exists pre,
          res_trace (main (rt := Demo.runtime) w)
          = (pre ++ [EvPrint "Could not find an available port"])%list)
      \/ exists p e pre evs,
          8080 <= p < 8080 + 10
          /\ errno e <> Some 98
          /\ res_trace (main (rt := Demo.runtime) w)
             = (pre ++ evs
                ++ [EvPrint ("Error starting server on port "
                             ++ Py.str_of_Z p ++ ": " ++ os_str e)%string])%list
          /\ let cwd := cwd_after w (w_cwd w) pre in
             let dir := TestServerHandler.script_dir (rt := Demo.runtime)
                          cwd (w_file w) in
             (w_bind w p = BindFails e /\ evs = [EvBind p])
             \/ (w_bind w p = Bound /\ w_chdir w dir = Some e
                 /\ evs = (startup (rt := Demo.runtime) w p cwd
                           ++ [EvClose p])%list)
             \/ (w_bind w p = Bound /\ w_chdir w dir = None
                 /\ w_serve_end w p = ServeFails e
                 /\ evs = (startup (rt := Demo.runtime) w p cwd
                           ++ EvServe p
                           :: flat_map
                                (connection_events (rt := Demo.runtime) w dir)
                                (w_connections w p)
                           ++ [EvClose p])%list)).
Proof.
  apply (sys_exit_has_status_1_and_is_announced (rt := Demo.runtime)
           (Demo.world [8080] [8081] Demo.EADDRINUSE [] Forever) 8080).
  exists 1. reflexivity.
Defined.

(** The process ends with status 0 only when the serve loop on a
    candidate port that was bound returned normally, which takes a
    shutdown of the server; the server is then closed, and that is the
    last thing the run does. *)
Theorem exits_with_status_0_only_after_shutdown {rt : Runtime}
    (w : World) (P : Z) :
  exit_status (res_outcome (main_from w P)) = Some 0 ->
  exists p pre,
    P <= p < P + 10 /\ w_bind w p = Bound /\ w_serve_end w p = ShutDown
    /\ res_trace (main_from w P) = (pre ++ [EvClose p])%list
    /\ In (EvServe p) pre.
Proof.
  unfold main_from. intros E.
  assert (Hret : res_outcome (scan w (range P (P + 10)) (w_cwd w))
                 = Returned).
  { destruct (res_outcome _) as [|code| |] eqn:Ho;
      cbn [exit_status] in E; try discriminate E; [reflexivity|].
    destruct (scan_sys_exit w _ _ _ Ho) as (-> & _). discriminate E. }
  destruct (scan_returned w _ _ Hret) as (p & pre & Hin & Hb & He & Ht & Hs).
  exists p, pre. apply range_In in Hin. repeat split; try lia; assumption.
Qed.

Lemma exits_with_status_0_only_after_shutdown_witness :
  let w := Demo.world [8080] [] Demo.EADDRINUSE [] ShutDown in
  exists p pre,
    8080 <= p < 8080 + 10 /\ w_bind w p = Bound /\ w_serve_end w p = ShutDown
    /\ res_trace (main (rt := Demo.runtime) w) = (pre ++ [EvClose p])%list
    /\ In (EvServe p) pre.
Proof.
  apply (exits_with_status_0_only_after_shutdown (rt := Demo.runtime)
           (Demo.world [8080] [] Demo.EADDRINUSE [] ShutDown) 8080).
  reflexivity.
Defined.

(** At no moment of a run are two server sockets open.  When the run
    ends, however it ends, none is left open; while it serves without
    end, the one open socket is that of a candidate port that was
    bound. *)
Theorem at_most_one_server_socket_and_none_left_open {rt : Runtime}
    (w : World) (P : Z) :
  (peak w [] (res_trace (main_from w P)) <= 1)%nat
  /\ (res_outcome (main_from w P) <> Serving ->
      listening w [] (res_trace (main_from w P)) = [])
  /\ (res_outcome (main_from w P) = Serving ->
      exists p,
        P <= p < P + 10 /\ w_bind w p = Bound /\ w_serve_end w p = Forever
        /\ listening w [] (res_trace (main_from w P)) = [p]).
Proof.
  unfold main_from.
  destruct (scan_sockets w (range P (P + 10)) (w_cwd w)) as (Hp & Hl & Hs).
  split; [exact Hp|]. split; [exact Hl|].
  intros E. destruct (Hs E) as (p & Hin & Hb & He & Hp').
  exists p. apply range_In in Hin. repeat split; try lia; assumption.
Qed.

Lemma at_most_one_server_socket_and_none_left_open_witness :
  let w := Demo.world [8080] [] Demo.EADDRINUSE [] Forever in
  exists p,
    8080 <= p < 8080 + 10 /\ w_bind w p = Bound /\ w_serve_end w p = Forever
    /\ listening w [] (res_trace (main (rt := Demo.runtime) w)) = [p].
Proof.
  apply (at_most_one_server_socket_and_none_left_open (rt := Demo.runtime)
           (Demo.world [8080] [] Demo.EADDRINUSE [] Forever) 8080).
  reflexivity.
Defined.

(** The serve loop is entered only on one of the ten candidate ports,
    and only on a port that was bound and whose three banner lines were
    printed. *)
Theorem serves_only_on_bound_and_announced_candidates {rt : Runtime}
    (w : World) (P q : Z) :
  In (EvServe q) (res_trace (main_from w P)) ->
  P <= q < P + 10
  /\ w_bind w q = Bound
  /\ incl (EvBind q :: banner q) (res_trace (main_from w P)).
Proof.
  unfold main_from. intros Hin.
  destruct (scan_served w _ _ _ Hin) as (Hq & Hb & Hi).
  apply range_In in Hq. repeat split; try lia; assumption.
Qed.

Lemma serves_only_on_bound_and_announced_candidates_witness :
  let w := Demo.world [8080] [] Demo.EADDRINUSE [] Forever in
  8080 <= 8081 < 8080 + 10
  /\ w_bind w 8081 = Bound
  /\ incl (EvBind 8081 :: banner 8081)
       (res_trace (main (rt := Demo.runtime) w)).
Proof.
  apply (serves_only_on_bound_and_announced_candidates (rt := Demo.runtime)
           (Demo.world [8080] [] Demo.EADDRINUSE [] Forever) 8080 8081).
  vm_compute. tauto.
Defined.

(** An [OSError] raised by [os.chdir], after the bind of [P] succeeded
    and the banner was printed, is caught by the same [except] clause as
    a failed bind.  The server is closed without having served; then,
    when [errno] is not 98, the run prints "Error starting server on
    port P: ..." and ends with [sys.exit(1)], and when it is 98, the run
    prints "Port P is busy, trying P+1" and goes on to bind [P+1]. *)
Theorem chdir_failure_closes_the_server_and_is_handled_as_bind_failure
    {rt : Runtime} (w : World) (P : Z) (e : OSError) :
  w_bind w P = Bound ->
  w_chdir w (TestServerHandler.script_dir (w_cwd w) (w_file w)) = Some e ->
  let rest := scan w (range (P + 1) (P + 10)) (w_cwd w) in
  (errno e <> Some 98 ->
   res_trace (main_from w P)
   = (startup w P (w_cwd w)
      ++ [EvClose P; EvPrint (error_line P e)])%list
   /\ res_outcome (main_from w P) = SysExit 1)
  /\ (errno e = Some 98 ->
      res_trace (main_from w P)
      = (startup w P (w_cwd w)
         ++ EvClose P :: EvPrint (busy_line P) :: res_trace rest)%list
      /\ res_outcome (main_from w P) = res_outcome rest
      /\ exists tl, res_trace rest = EvBind (P + 1) :: tl).
Proof.
  intros Hb Hc. cbv zeta. unfold main_from.
  rewrite (range_cons P) by lia. cbn [scan]. unfold try_body.
  rewrite Hb, Hc. fold (startup w P (w_cwd w)). split; intros He.
  - rewrite (errno_is_98_false _ He). cbn [res_trace res_outcome].
    rewrite <- app_assoc. split; reflexivity.
  - apply errno_is_98_spec in He. rewrite He. cbn [res_trace res_outcome].
    rewrite <- app_assoc. repeat split.
    rewrite (range_cons (P + 1)) by lia. apply scan_starts_with_bind.
Qed.

Lemma chdir_failure_closes_the_server_and_is_handled_as_bind_failure_witness :
  let w := Demo.no_entry (Demo.world [] [] Demo.EADDRINUSE [] Forever)
             Demo.EACCES in
  res_trace (main (rt := Demo.runtime) w)
  = [EvBind 8080;
     EvPrint "Starting test server at http://localhost:8080/";
     EvPrint "Test page available at: http://localhost:8080/test-elements.html";
     EvPrint "Press Ctrl+C to stop the server";
     EvChdir "/srv/app";
     EvClose 8080;
     EvPrint
       "Error starting server on port 8080: [Errno 13] Permission denied"]
  /\ res_outcome (main (rt := Demo.runtime) w) = SysExit 1.
Proof.
  apply (chdir_failure_closes_the_server_and_is_handled_as_bind_failure
           (rt := Demo.runtime)
           (Demo.no_entry (Demo.world [] [] Demo.EADDRINUSE [] Forever)
              Demo.EACCES)
           8080 Demo.EACCES eq_refl eq_refl).
  discriminate.
Defined.

(** An [OSError] that ends the serve loop on the bound port [P] is
    caught by the same [except] clause as a failed bind.  The server is
    closed; then, when [errno] is not 98, the run prints "Error starting
    server on port P: ..." and ends with [sys.exit(1)], and when it is
    98, the run prints "Port P is busy, trying P+1", although [P] was
    bound and has served, and goes on to bind [P+1] with the working
    directory now that of the program. *)
Theorem serve_loop_oserror_is_handled_as_bind_failure
    {rt : Runtime} (w : World) (P : Z) (e : OSError) :
  w_bind w P = Bound ->
  w_chdir w (TestServerHandler.script_dir (w_cwd w) (w_file w)) = None ->
  w_serve_end w P = ServeFails e ->
  let dir := TestServerHandler.script_dir (w_cwd w) (w_file w) in
  let served :=
    (startup w P (w_cwd w)
     ++ EvServe P :: flat_map (connection_events w dir) (w_connections w P)
     ++ [EvClose P])%list in
  let rest := scan w (range (P + 1) (P + 10)) dir in
  (errno e <> Some 98 ->
   res_trace (main_from w P) = (served ++ [EvPrint (error_line P e)])%list
   /\ res_outcome (main_from w P) = SysExit 1)
  /\ (errno e = Some 98 ->
      res_trace (main_from w P)
      = (served ++ EvPrint (busy_line P) :: res_trace rest)%list
      /\ res_outcome (main_from w P) = res_outcome rest
      /\ exists tl, res_trace rest = EvBind (P + 1) :: tl).
Proof.
  intros Hb Hc Hend. cbv zeta. unfold main_from.
  rewrite (range_cons P) by lia. cbn [scan]. unfold try_body, serve_forever.
  rewrite Hb, Hc, Hend. fold (startup w P (w_cwd w)). split; intros He.
  - rewrite (errno_is_98_false _ He). cbn [res_trace res_outcome].
    split; reflexivity.
  - apply errno_is_98_spec in He. rewrite He. cbn [res_trace res_outcome].
    repeat split.
    rewrite (range_cons (P + 1)) by lia. apply scan_starts_with_bind.
Qed.

Lemma serve_loop_oserror_is_handled_as_bind_failure_witness :
  let w := Demo.world [] [] Demo.EADDRINUSE []
             (ServeFails Demo.EADDRINUSE) in
  let rest := scan (rt := Demo.runtime) w (range (8080 + 1) (8080 + 10))
                "/srv/app" in
  res_trace (main (rt := Demo.runtime) w)
  = ([EvBind 8080;
      EvPrint "Starting test server at http://localhost:8080/";
      EvPrint
        "Test page available at: http://localhost:8080/test-elements.html";
      EvPrint "Press Ctrl+C to stop the server";
      EvChdir "/srv/app"; EvServe 8080; EvClose 8080]
     ++ EvPrint "Port 8080 is busy, trying 8081" :: res_trace rest)%list
  /\ res_outcome (main (rt := Demo.runtime) w) = res_outcome rest
  /\ exists tl, res_trace rest = EvBind (8080 + 1) :: tl.
Proof.
  apply (serve_loop_oserror_is_handled_as_bind_failure (rt := Demo.runtime)
           (Demo.world [] [] Demo.EADDRINUSE []
              (ServeFails Demo.EADDRINUSE))
           8080 Demo.EADDRINUSE eq_refl eq_refl eq_refl).
  reflexivity.
Defined.

(** * The handler, method by method *)

(** [end_headers], on a handler whose request version is not HTTP/0.9,
    writes exactly one header section, made of the header lines buffered
    so far, the three Access-Control fields in the order of the source,
    and the blank line; it empties the buffer and touches nothing else:
    not what was written before, not the log.  On a handler whose
    request version is HTTP/0.9 it changes nothing. *)
Theorem end_headers_closes_the_section_with_the_cors_fields (h : handler) :
  (request_version h <> "HTTP/0.9" ->
   TestServerHandler.end_headers h
   = set_headers_buffer []
       (set_wfile
          (wfile h ++ [Head (headers_buffer h ++ cors_fields
                             ++ [EndOfHeaders])])
          h))
  /\ (request_version h = "HTTP/0.9" -> TestServerHandler.end_headers h = h).
Proof.
  destruct h as [d rl c p ver hs hb wf cc clk t so esc].
  cbn [request_version wfile headers_buffer]. rewrite end_headers_mk.
  split; intros Hv.
  - rewrite (live_true _ Hv). reflexivity.
  - rewrite (live_false _ Hv). cbn [negb when]. rewrite app_nil_r.
    reflexivity.
Qed.

Lemma end_headers_closes_the_section_with_the_cors_fields_witness :
  let h := mkHandler "/srv/app" "GET / HTTP/1.1" (Some "GET") "/" "HTTP/1.1"
             [] [Status "HTTP/1.0" 200 "OK"] [] true (Demo.ticking 5) 0 []
             None in
  TestServerHandler.end_headers h
  = mkHandler "/srv/app" "GET / HTTP/1.1" (Some "GET") "/" "HTTP/1.1" [] []
      [Head [Status "HTTP/1.0" 200 "OK";
             Field "Access-Control-Allow-Origin" "*";
             Field "Access-Control-Allow-Methods" "GET, POST, OPTIONS";
             Field "Access-Control-Allow-Headers" "Content-Type";
             EndOfHeaders]]
      true (Demo.ticking 5) 0 [] None.
Proof.
  apply (end_headers_closes_the_section_with_the_cors_fields
           (mkHandler "/srv/app" "GET / HTTP/1.1" (Some "GET") "/" "HTTP/1.1"
              [] [Status "HTTP/1.0" 200 "OK"] [] true (Demo.ticking 5) 0 []
              None)).
  discriminate.
Defined.



(** The handler leaves [close_connection] set after every request,
    whatever its version and its Connection field: the class keeps the
    protocol version HTTP/1.0 of its base class, so a connection serves
    one request. *)
Theorem connection_is_closed_after_every_request {rt : Runtime}
    (fs : filesystem) (cwd file_ : string) (out : list string)
    (r : request) :
  close_connection (TestServerHandler.handle fs cwd file_ out r) = true.
Proof.
  destruct (handle_reply fs cwd file_ out r)
    as [code fields body _ _ _ | code m _ | x q _];
    reflexivity.
Qed.
